(** * calendar-summary: event normalisation, rendering and message bounds

    A shallow embedding of the pure core of the calendar summary bot:
    - [calendar_client.py]: [_is_declined], [_process_event] and the
      filtering loop of [get_events];
    - [summariser.py]: [_format_single_event] and
      [_format_events_for_claude];
    - [whatsapp_client.py]: the truncation step of [send_summary].

    Python values are modelled as follows.  A [str] is a list of code points
    (so [len] is [length] and [s[:n]] is [firstn n s]); a dict with a fixed
    set of optional keys is a record of [option] fields, [None] standing for
    an absent key; a raised exception is the [Raise] branch of [result]. *)

From Stdlib Require Import Strings.String Strings.Ascii Numbers.DecimalString.
From Stdlib Require Import List ZArith NArith Bool Lia.
Import ListNotations.

Set Implicit Arguments.

(** ** Python strings *)

Definition char := N.
Definition str := list char.

(** A literal of the source, given here as an ASCII string. *)
Definition lit (s : string) : str :=
  map N_of_ascii (list_ascii_of_string s).

Fixpoint str_eqb (a b : str) : bool :=
  match a, b with
  | [], [] => true
  | x :: a', y :: b' => N.eqb x y && str_eqb a' b'
  | _, _ => false
  end.

(** [s.replace(c, by)] for a one-character pattern [c]. *)
Fixpoint replace (c : char) (by_ : str) (s : str) : str :=
  match s with
  | [] => []
  | x :: s' => (if N.eqb x c then by_ else [x]) ++ replace c by_ s'
  end.

(** [c in s] for a one-character [c]. *)
Definition contains (c : char) (s : str) : bool :=
  existsb (N.eqb c) s.

(** [s.split(c)[0]]: the part of [s] before the first [c]. *)
Fixpoint split_head (c : char) (s : str) : str :=
  match s with
  | [] => []
  | x :: s' => if N.eqb x c then [] else x :: split_head c s'
  end.

(** [str(n)] for a non-negative integer. *)
Definition str_of_nat (n : nat) : str :=
  lit (NilZero.string_of_uint (Nat.to_uint n)).

Definition chr_Z : char := 90%N.
Definition chr_T : char := 84%N.
Definition bullet : char := 8226%N.

(** ** Exceptions *)

Inductive exn : Type :=
| KeyError (key : str)
| AttributeError
| TypeError
| ValueError.

Inductive result (A : Type) : Type :=
| Ok (a : A)
| Raise (e : exn).

Arguments Ok {A} a.
Arguments Raise {A} e.

Definition bind {A B : Type} (m : result A) (k : A -> result B) : result B :=
  match m with
  | Ok a => k a
  | Raise e => Raise e
  end.

Notation "x <- m ;; k" := (bind m (fun x => k))
  (at level 61, m at next level, right associativity).

(** [d[key]] on a dict whose key may be absent. *)
Definition subscript {A : Type} (key : string) (field : option A) : result A :=
  match field with
  | Some v => Ok v
  | None => Raise (KeyError (lit key))
  end.

(** [d.get(key, default)]. *)
Definition get {A : Type} (field : option A) (default : A) : A :=
  match field with
  | Some v => v
  | None => default
  end.

(** ** Raw provider records (the dicts of the Calendar API) *)

Module Raw.

Module Time.
Record t : Type := mk { dateTime : option str; date : option str }.
End Time.

Module Attendee.
Record t : Type := mk {
  self : option bool;
  email : option str;
  displayName : option str;
  responseStatus : option str
}.
End Attendee.

Module Organizer.
Record t : Type := mk { displayName : option str }.
End Organizer.

Module Event.
Record t : Type := mk {
  summary : option str;
  description : option str;
  start : option Time.t;
  end_ : option Time.t;
  location : option str;
  attendees : option (list Attendee.t);
  organizer : option Organizer.t;
  htmlLink : option str
}.
End Event.

End Raw.

(** ** Processed events (the dicts built by [_process_event]) *)

Module Attendee.
Record t : Type := mk {
  email : option str;
  name : option str;
  status : option str
}.
End Attendee.

Module Event.
Record t : Type := mk {
  summary : str;
  description : str;
  start : option str;
  end_ : option str;
  is_all_day : bool;
  location : str;
  attendees : list Attendee.t;
  organizer : str;
  html_link : str
}.
End Event.

(** The response status of an attendee entry that carries none: Python's
    [None], which the specification calls [unknown]. *)
Definition unknown : option str := None.

(** ** calendar_client.py *)

(** [_is_declined], lines 159-174. *)
Fixpoint _is_declined_loop (attendees : list Raw.Attendee.t) : bool :=
  match attendees with
  | [] => false
  | attendee :: rest =>
      if get (Raw.Attendee.self attendee) false
         && match Raw.Attendee.responseStatus attendee with
            | Some s => str_eqb s (lit "declined")
            | None => false
            end
      then true
      else _is_declined_loop rest
  end.

Definition _is_declined (event : Raw.Event.t) : bool :=
  _is_declined_loop (get (Raw.Event.attendees event) []).

(** [d.get('dateTime', d.get('date'))], lines 187-188. *)
Definition time_value (d : Raw.Time.t) : option str :=
  match Raw.Time.dateTime d with
  | Some v => Some v
  | None => Raw.Time.date d
  end.

(** ['date' in d], line 191. *)
Definition has_date (d : Raw.Time.t) : bool :=
  match Raw.Time.date d with
  | Some _ => true
  | None => false
  end.

(** The body of the attendee loop, lines 196-201. *)
Definition attendee_ref (attendee : Raw.Attendee.t) : Attendee.t :=
  {| Attendee.email := Raw.Attendee.email attendee;
     Attendee.name :=
       match Raw.Attendee.displayName attendee with
       | Some n => Some n
       | None => Raw.Attendee.email attendee
       end;
     Attendee.status := Raw.Attendee.responseStatus attendee |}.

Definition process_attendees (l : list Raw.Attendee.t) : list Attendee.t :=
  fold_left
    (fun attendees attendee =>
       if negb (get (Raw.Attendee.self attendee) false)
       then attendees ++ [attendee_ref attendee]
       else attendees)
    l [].

(** [_process_event], lines 176-213. *)
Definition _process_event (event : Raw.Event.t) : result Event.t :=
  s <- subscript "start" (Raw.Event.start event) ;;
  e <- subscript "end" (Raw.Event.end_ event) ;;
  let start := time_value s in
  let end_ := time_value e in
  let is_all_day := has_date s in
  let attendees := process_attendees (get (Raw.Event.attendees event) []) in
  Ok {| Event.summary := get (Raw.Event.summary event) (lit "No Title");
        Event.description := get (Raw.Event.description event) [];
        Event.start := start;
        Event.end_ := end_;
        Event.is_all_day := is_all_day;
        Event.location := get (Raw.Event.location event) [];
        Event.attendees := attendees;
        Event.organizer :=
          get (Raw.Organizer.displayName
                 (get (Raw.Event.organizer event) (Raw.Organizer.mk None)))
              (lit "Unknown");
        Event.html_link := get (Raw.Event.htmlLink event) [] |}.

(** The filtering loop of [get_events], lines 139-148. *)
Fixpoint get_events_loop (events : list Raw.Event.t)
    (filtered_events : list Event.t) : result (list Event.t) :=
  match events with
  | [] => Ok filtered_events
  | event :: rest =>
      if _is_declined event
      then get_events_loop rest filtered_events
      else
        e <- _process_event event ;;
        get_events_loop rest (filtered_events ++ [e])
  end.

(** What [events().list(...).execute()] gives back: an [HttpError], or a
    reply whose ['items'] key may be absent. *)
Inductive api_reply : Type :=
| HttpError
| Reply (items : option (list Raw.Event.t)).

(** [get_events], lines 126-157, as a function of the provider's reply. *)
Definition get_events (reply : api_reply) : result (list Event.t) :=
  match reply with
  | HttpError => Ok []
  | Reply items => get_events_loop (get items []) []
  end.

(** ** The [datetime] values of the standard library *)

(** A [datetime] object: its wall-clock fields, and the UTC offset in seconds
    of an aware value ([None] for a naive one). *)
Record datetime : Type := mk_datetime {
  year : Z;
  month : Z;
  day : Z;
  hour : Z;
  minute : Z;
  second : Z;
  microsecond : Z;
  utcoffset : option Z
}.

Open Scope Z_scope.

Definition _is_leap (y : Z) : bool :=
  (y mod 4 =? 0) && (negb (y mod 100 =? 0) || (y mod 400 =? 0)).

Definition _days_before_year (y : Z) : Z :=
  let y' := y - 1 in
  y' * 365 + y' / 4 - y' / 100 + y' / 400.

Definition _days_before_month (y m : Z) : Z :=
  nth (Z.to_nat m) [0; 0; 31; 59; 90; 120; 151; 181; 212; 243; 273; 304; 334] 0
  + (if (2 <? m) && _is_leap y then 1 else 0).

Definition _ymd2ord (y m d : Z) : Z :=
  _days_before_year y + _days_before_month y m + d.

(** Seconds on the wall clock since the start of day 0 of the proleptic
    calendar. *)
Definition wall_seconds (d : datetime) : Z :=
  _ymd2ord (year d) (month d) (day d) * 86400
  + hour d * 3600 + minute d * 60 + second d.

(** The position of a datetime on its time line, in microseconds: the wall
    clock of a naive value, the UTC instant of an aware one. *)
Definition instant (d : datetime) : Z :=
  (wall_seconds d - get (utcoffset d) 0) * 1000000 + microsecond d.

Definition is_aware (d : datetime) : bool :=
  match utcoffset d with
  | Some _ => true
  | None => false
  end.

(** [a > b]: naive values compare with naive ones, aware with aware; a mixed
    comparison raises [TypeError]. *)
Definition datetime_gt (a b : datetime) : result bool :=
  if Bool.eqb (is_aware a) (is_aware b)
  then Ok (instant b <? instant a)
  else Raise TypeError.

Close Scope Z_scope.

(** The two library functions the summariser calls and this development
    leaves open: [datetime.fromisoformat] ([None] when it raises
    [ValueError]) and [datetime.strftime]. *)
Class DatetimeLib : Type := {
  fromisoformat : str -> option datetime;
  strftime : datetime -> string -> str
}.

(** ** summariser.py *)

Definition nl : str := [10%N].

(** Truthiness of a list or string. *)
Definition truthy {A : Type} (l : list A) : bool :=
  match l with
  | [] => false
  | _ :: _ => true
  end.

(** [f"{v}"] for a value that is a string or [None]. *)
Definition fmt (v : option str) : str :=
  match v with
  | Some s => s
  | None => lit "None"
  end.

Section Summariser.

Context {lib : DatetimeLib}.

(** [datetime.fromisoformat(v.replace('Z', '+00:00'))]. *)
Definition parse_iso (v : option str) : result datetime :=
  match v with
  | None => Raise AttributeError
  | Some s =>
      match fromisoformat (replace chr_Z (lit "+00:00") s) with
      | Some d => Ok d
      | None => Raise ValueError
      end
  end.

(** The date/time line of an event, lines 137-147. *)
Definition time_str_of (event : Event.t) : result str :=
  let start := Event.start event in
  let end_ := Event.end_ event in
  if Event.is_all_day event then
    match start with
    | None => Raise TypeError
    | Some start =>
        let date_str :=
          if contains chr_T start then split_head chr_T start else start in
        Ok (date_str ++ lit " (All Day)")
    end
  else
    match
      (start_dt <- parse_iso start ;;
       end_dt <- parse_iso end_ ;;
       Ok (strftime start_dt "%Y-%m-%d %H:%M" ++ lit " - "
           ++ strftime end_dt "%H:%M"))
    with
    | Ok time_str => Ok time_str
    | Raise _ => Ok (fmt start ++ lit " - " ++ fmt end_)
    end.

(** The preview of a description, line 158. *)
Definition desc_preview (description : str) : str :=
  if 200 <? length description
  then firstn 200 description ++ lit "..."
  else description.

(** [_format_single_event], lines 119-165. *)
Definition _format_single_event (event : Event.t) : result str :=
  let summary := Event.summary event in
  let description := Event.description event in
  let location := Event.location event in
  let attendees := Event.attendees event in
  time_str <- time_str_of event ;;
  let event_str := [bullet] ++ lit " " ++ summary ++ nl in
  let event_str := event_str ++ lit "  Time: " ++ time_str ++ nl in
  let event_str :=
    if truthy location
    then event_str ++ lit "  Location: " ++ location ++ nl
    else event_str in
  let event_str :=
    if truthy description
    then event_str ++ lit "  Description: " ++ desc_preview description ++ nl
    else event_str in
  let event_str :=
    if truthy attendees
    then event_str ++ lit "  Attendees: " ++ str_of_nat (length attendees)
           ++ lit " people" ++ nl
    else event_str in
  Ok event_str.

(** [for event in events: output += fmt(event); output += "\n"]. *)
Fixpoint render_loop (events : list Event.t) (output : str) : result str :=
  match events with
  | [] => Ok output
  | event :: rest =>
      block <- _format_single_event event ;;
      render_loop rest (output ++ block ++ nl)
  end.

Definition weekly_header : str :=
  lit "=== WEEKLY EVENTS (Next 7 Days) ===" ++ nl ++ nl.

Definition no_events_sentence : str :=
  lit "No events scheduled for the next week." ++ nl.

Definition monthly_header : str :=
  nl ++ lit "=== MONTHLY LOOK-AHEAD (Important Items Beyond This Week) ==="
     ++ nl ++ nl.

(** The weekly part of the output, lines 85-92. *)
Definition weekly_text (weekly_events : list Event.t) : result str :=
  let output := weekly_header in
  if negb (truthy weekly_events)
  then Ok (output ++ no_events_sentence)
  else render_loop weekly_events output.

(** [weekly_end], lines 97-101: the start of [weekly_events[-1]]. *)
Definition weekly_end_of (weekly_events : list Event.t)
    : result (option datetime) :=
  match weekly_events with
  | [] => Ok None
  | first :: _ =>
      d <- parse_iso (Event.start (last weekly_events first)) ;;
      Ok (Some d)
  end.

(** The test of line 108: [weekly_end and event_start > weekly_end]. *)
Definition beyond (weekly_end : option datetime) (event_start : datetime)
    : result bool :=
  match weekly_end with
  | None => Ok false
  | Some w => datetime_gt event_start w
  end.

(** The loop of lines 103-109. *)
Fixpoint future_loop (weekly_end : option datetime)
    (monthly_events future_events : list Event.t) : result (list Event.t) :=
  match monthly_events with
  | [] => Ok future_events
  | event :: rest =>
      event_start <- parse_iso (Event.start event) ;;
      keep <- beyond weekly_end event_start ;;
      future_loop weekly_end rest
        (if keep then future_events ++ [event] else future_events)
  end.

(** [future_events] as computed by lines 97-109. *)
Definition future_events_of (weekly_events monthly_events : list Event.t)
    : result (list Event.t) :=
  weekly_end <- weekly_end_of weekly_events ;;
  future_loop weekly_end monthly_events [].

(** The monthly section, lines 111-115. *)
Definition monthly_section (output : str) (future_events : list Event.t)
    : result str :=
  if truthy future_events
  then render_loop future_events (output ++ monthly_header)
  else Ok output.

(** [_format_events_for_claude], lines 70-117; [None] is the default
    argument of [monthly_events]. *)
Definition _format_events_for_claude (weekly_events : list Event.t)
    (monthly_events : option (list Event.t)) : result str :=
  output <- weekly_text weekly_events ;;
  if truthy (get monthly_events [])
  then
    future_events <- future_events_of weekly_events (get monthly_events []) ;;
    monthly_section output future_events
  else Ok output.

End Summariser.

(** ** whatsapp_client.py *)

Definition truncation_marker : str :=
  nl ++ nl ++ lit "... (message truncated)".

(** The bounding of the message in [send_summary], lines 111-118. *)
Definition enforce (formatted_message : str) : str :=
  if 1600 <? length formatted_message
  then firstn 1550 formatted_message ++ truncation_marker
  else formatted_message.

Definition default_subject : str :=
  [128197%N] ++ lit " Weekly Calendar Summary".

(** [send_summary], lines 97-120, over the delivery function it ends in. *)
Definition send_summary (send_message : str -> bool)
    (summary subject : str) : bool :=
  let formatted_message := subject ++ nl ++ nl ++ summary in
  send_message (enforce formatted_message).

(** ** A reference instance of the datetime functions

    [fromisoformat] on the fixed-width forms [YYYY-MM-DD],
    [YYYY-MM-DDTHH:MM:SS] and [YYYY-MM-DDTHH:MM:SS+HH:MM], which every
    version of the library reads the same way, and [strftime] for the two
    formats the summariser uses.  The theorems below hold for every
    [DatetimeLib]; this one serves to run the model on concrete events. *)

Module Rfc3339.

Open Scope Z_scope.

Definition digit (c : char) : option Z :=
  if ((48 <=? c) && (c <=? 57))%N then Some (Z.of_N c - 48) else None.

Fixpoint number (s : str) (acc : Z) : option Z :=
  match s with
  | [] => Some acc
  | c :: s' =>
      match digit c with
      | Some d => number s' (10 * acc + d)
      | None => None
      end
  end.

Definition days_in_month (y m : Z) : Z :=
  if (m =? 2) && _is_leap y then 29
  else nth (Z.to_nat m) [0; 31; 28; 31; 30; 31; 30; 31; 31; 30; 31; 30; 31] 0.

Definition is_chr (c : char) (a : string) : bool :=
  str_eqb [c] (lit a).

Definition parse_date (s : str) : option (Z * Z * Z) :=
  match s with
  | [y1; y2; y3; y4; h1; m1; m2; h2; d1; d2] =>
      match number [y1; y2; y3; y4] 0, number [m1; m2] 0, number [d1; d2] 0 with
      | Some y, Some m, Some d =>
          if is_chr h1 "-" && is_chr h2 "-"
             && (1 <=? y) && (1 <=? m) && (m <=? 12)
             && (1 <=? d) && (d <=? days_in_month y m)
          then Some (y, m, d) else None
      | _, _, _ => None
      end
  | _ => None
  end.

Definition parse_time (s : str) : option (Z * Z * Z) :=
  match s with
  | [h1; h2; c1; m1; m2; c2; s1; s2] =>
      match number [h1; h2] 0, number [m1; m2] 0, number [s1; s2] 0 with
      | Some h, Some m, Some sec =>
          if is_chr c1 ":" && is_chr c2 ":"
             && (h <? 24) && (m <? 60) && (sec <? 60)
          then Some (h, m, sec) else None
      | _, _, _ => None
      end
  | _ => None
  end.

Definition parse_offset (s : str) : option (option Z) :=
  match s with
  | [] => Some None
  | [sg; h1; h2; c; m1; m2] =>
      match number [h1; h2] 0, number [m1; m2] 0 with
      | Some h, Some m =>
          if is_chr c ":" && (h <? 24) && (m <? 60)
          then
            if is_chr sg "+" then Some (Some (h * 3600 + m * 60))
            else if is_chr sg "-" then Some (Some (- (h * 3600 + m * 60)))
            else None
          else None
      | _, _ => None
      end
  | _ => None
  end.

Definition fromisoformat (s : str) : option datetime :=
  match parse_date (firstn 10 s) with
  | None => None
  | Some (y, m, d) =>
      match skipn 10 s with
      | [] => Some (mk_datetime y m d 0 0 0 0 None)
      | sep :: rest =>
          match parse_time (firstn 8 rest), parse_offset (skipn 8 rest) with
          | Some (h, mi, sec), Some off =>
              Some (mk_datetime y m d h mi sec 0 off)
          | _, _ => None
          end
      end
  end.

Definition decimal (n : Z) : str :=
  lit (NilZero.string_of_uint (N.to_uint (Z.to_N n))).

Definition pad (width : nat) (n : Z) : str :=
  let s := decimal n in
  repeat 48%N (width - length s) ++ s.

Definition strftime (d : datetime) (format : string) : str :=
  let hm := pad 2 (hour d) ++ lit ":" ++ pad 2 (minute d) in
  if String.eqb format "%H:%M" then hm
  else if String.eqb format "%Y-%m-%d %H:%M" then
    pad 4 (year d) ++ lit "-" ++ pad 2 (month d) ++ lit "-" ++ pad 2 (day d)
      ++ lit " " ++ hm
  else [].

Definition lib : DatetimeLib :=
  Build_DatetimeLib fromisoformat strftime.

Close Scope Z_scope.

End Rfc3339.

(** ** Sample records *)

Module Sample.

Definition timed (title start end_ : string) : Event.t :=
  {| Event.summary := lit title;
     Event.description := [];
     Event.start := Some (lit start);
     Event.end_ := Some (lit end_);
     Event.is_all_day := false;
     Event.location := [];
     Event.attendees := [];
     Event.organizer := lit "Unknown";
     Event.html_link := [] |}.

Definition standup : Event.t :=
  timed "Standup" "2024-01-08T09:00:00Z" "2024-01-08T09:15:00Z".
Definition review : Event.t :=
  timed "Review" "2024-01-12T15:00:00+01:00" "2024-01-12T16:00:00+01:00".
Definition early : Event.t :=
  timed "Early" "2024-01-12T13:00:00Z" "2024-01-12T13:30:00Z".
Definition late : Event.t :=
  timed "Late" "2024-01-12T15:00:00Z" "2024-01-12T15:30:00Z".

Definition raw (title : string) (start end_ : option Raw.Time.t)
    (attendees : option (list Raw.Attendee.t)) : Raw.Event.t :=
  {| Raw.Event.summary := Some (lit title);
     Raw.Event.description := None;
     Raw.Event.start := start;
     Raw.Event.end_ := end_;
     Raw.Event.location := None;
     Raw.Event.attendees := attendees;
     Raw.Event.organizer := None;
     Raw.Event.htmlLink := None |}.

Definition at_time (v : string) : option Raw.Time.t :=
  Some (Raw.Time.mk (Some (lit v)) None).

Definition on_date (v : string) : option Raw.Time.t :=
  Some (Raw.Time.mk None (Some (lit v))).

Definition me_declined : Raw.Attendee.t :=
  {| Raw.Attendee.self := Some true;
     Raw.Attendee.email := Some (lit "me@example.com");
     Raw.Attendee.displayName := None;
     Raw.Attendee.responseStatus := Some (lit "declined") |}.

Definition ann : Raw.Attendee.t :=
  {| Raw.Attendee.self := None;
     Raw.Attendee.email := Some (lit "ann@example.com");
     Raw.Attendee.displayName := None;
     Raw.Attendee.responseStatus := None |}.

Definition raw_standup : Raw.Event.t :=
  raw "Standup" (at_time "2024-01-08T09:00:00Z")
    (at_time "2024-01-08T09:15:00Z") (Some [ann]).

Definition raw_declined : Raw.Event.t :=
  raw "Retro" (at_time "2024-01-09T10:00:00Z")
    (at_time "2024-01-09T11:00:00Z") (Some [ann; me_declined]).

Definition raw_no_start : Raw.Event.t :=
  raw "Broken" None (at_time "2024-01-10T11:00:00Z") None.

(** A start mapping that carries both fields. *)
Definition raw_both : Raw.Event.t :=
  raw "Both"
    (Some (Raw.Time.mk (Some (lit "2024-01-11T10:00:00Z"))
                       (Some (lit "2024-01-11"))))
    (at_time "2024-01-11T11:00:00Z") None.

(** A date-only start with a timestamp end. *)
Definition raw_mixed : Raw.Event.t :=
  raw "Mixed" (on_date "2024-01-11") (at_time "2024-01-11T11:00:00Z") None.

Definition described (n : nat) : Event.t :=
  {| Event.summary := lit "Notes";
     Event.description := repeat 120%N n;
     Event.start := Some (lit "2024-01-08");
     Event.end_ := Some (lit "2024-01-09");
     Event.is_all_day := true;
     Event.location := [];
     Event.attendees := [];
     Event.organizer := lit "Unknown";
     Event.html_link := [] |}.

(** What [_process_event] makes of [raw_standup]. *)
Definition standup_event : Event.t :=
  {| Event.summary := lit "Standup";
     Event.description := [];
     Event.start := Some (lit "2024-01-08T09:00:00Z");
     Event.end_ := Some (lit "2024-01-08T09:15:00Z");
     Event.is_all_day := false;
     Event.location := [];
     Event.attendees := [attendee_ref ann];
     Event.organizer := lit "Unknown";
     Event.html_link := [] |}.

(** A date-only record after the sample week, and its processed form. *)
Definition raw_holiday : Raw.Event.t :=
  raw "Holiday" (on_date "2024-01-20") (on_date "2024-01-21") None.

Definition holiday : Event.t :=
  {| Event.summary := lit "Holiday";
     Event.description := [];
     Event.start := Some (lit "2024-01-20");
     Event.end_ := Some (lit "2024-01-21");
     Event.is_all_day := true;
     Event.location := [];
     Event.attendees := [];
     Event.organizer := lit "Unknown";
     Event.html_link := [] |}.

(** The timed record that [review] is the processed form of. *)
Definition raw_review : Raw.Event.t :=
  raw "Review" (at_time "2024-01-12T15:00:00+01:00")
    (at_time "2024-01-12T16:00:00+01:00") None.

End Sample.

(** ** Predicates of the specification *)

(** Some attendee entry is the user's own and says [declined]. *)
Definition self_declined (event : Raw.Event.t) : Prop :=
  exists a,
    In a (get (Raw.Event.attendees event) [])
    /\ Raw.Attendee.self a = Some true
    /\ Raw.Attendee.responseStatus a = Some (lit "declined").

(** The record lacks its start or its end mapping. *)
Definition malformed (event : Raw.Event.t) : Prop :=
  Raw.Event.start event = None \/ Raw.Event.end_ event = None.

(** Which field of a start or end mapping [time_value] reads. *)
Inductive time_field : Type :=
| TimestampField
| DateOnlyField
| NoField.

Definition field_used (d : Raw.Time.t) : time_field :=
  match Raw.Time.dateTime d, Raw.Time.date d with
  | Some _, _ => TimestampField
  | None, Some _ => DateOnlyField
  | None, None => NoField
  end.

Definition non_self (a : Raw.Attendee.t) : bool :=
  negb (get (Raw.Attendee.self a) false).

(** An event the renderer accepts: an all-day event has a start string. *)
Definition renderable (event : Event.t) : Prop :=
  Event.is_all_day event = true -> Event.start event <> None.

(** The optional description line of a rendered block. *)
Definition description_line (description : str) : str :=
  match description with
  | [] => []
  | _ :: _ => lit "  Description: " ++ desc_preview description ++ nl
  end.

Definition location_line (location : str) : str :=
  match location with
  | [] => []
  | _ :: _ => lit "  Location: " ++ location ++ nl
  end.

Definition attendees_line (attendees : list Attendee.t) : str :=
  match attendees with
  | [] => []
  | _ :: _ =>
      lit "  Attendees: " ++ str_of_nat (length attendees) ++ lit " people" ++ nl
  end.

Section SummariserSpec.

Context {lib : DatetimeLib}.

(** The event's start parses to a datetime strictly later than [w]. *)
Definition starts_after (w : datetime) (event : Event.t) : bool :=
  match parse_iso (Event.start event) with
  | Ok d => (instant w <? instant d)%Z
  | Raise _ => false
  end.

(** The event's start parses to a datetime that compares with [w]. *)
Definition compares_with (w : datetime) (event : Event.t) : Prop :=
  exists d, parse_iso (Event.start event) = Ok d /\ is_aware d = is_aware w.

Definition start_parses (event : Event.t) : Prop :=
  exists d, parse_iso (Event.start event) = Ok d.

End SummariserSpec.

(** ** config.py *)

Module Config.

(** The class attributes of [Config], as read from the environment:
    [os.getenv(name)] is [None] for an unset variable, and a variable with a
    default is always a string. *)
Record t : Type := mk {
  GOOGLE_CALENDAR_CREDENTIALS_PATH : str;
  GOOGLE_CALENDAR_TOKEN_PATH : str;
  CALENDAR_ID : str;
  ANTHROPIC_API_KEY : option str;
  TWILIO_ACCOUNT_SID : option str;
  TWILIO_AUTH_TOKEN : option str;
  TWILIO_WHATSAPP_FROM : str;
  TWILIO_WHATSAPP_TO : option str;
  DRY_RUN : bool;
  VERBOSE : bool
}.

(** [not v] for a value that is a string or [None]. *)
Definition unset (v : option str) : bool :=
  match v with
  | Some (_ :: _) => false
  | _ => true
  end.

(** [sep.join(l)]. *)
Fixpoint join (sep : str) (l : list str) : str :=
  match l with
  | [] => []
  | [x] => x
  | x :: rest => x ++ sep ++ join sep rest
  end.

(** What [validate] does: it returns, or raises [ValueError(message)]. *)
Inductive validation : Type :=
| Validated
| ValueErrorOf (message : str).

(** The list [missing] of [validate], lines 64-76. *)
Definition missing_variables (cls : t) : list str :=
  let missing := [] in
  let missing :=
    if unset (ANTHROPIC_API_KEY cls)
    then missing ++ [lit "ANTHROPIC_API_KEY"] else missing in
  let missing :=
    if unset (TWILIO_ACCOUNT_SID cls)
    then missing ++ [lit "TWILIO_ACCOUNT_SID"] else missing in
  let missing :=
    if unset (TWILIO_AUTH_TOKEN cls)
    then missing ++ [lit "TWILIO_AUTH_TOKEN"] else missing in
  let missing :=
    if unset (TWILIO_WHATSAPP_TO cls)
    then missing ++ [lit "TWILIO_WHATSAPP_TO"] else missing in
  missing.

(** [Config.validate], lines 56-93, over [os.path.exists]. *)
Definition validate (cls : t) (path_exists : str -> bool) : validation :=
  let missing := missing_variables cls in
  if truthy missing then
    ValueErrorOf
      (lit "Missing required environment variables: "
       ++ join (lit ", ") missing ++ nl
       ++ lit "Please check your .env file or environment configuration.")
  else if negb (path_exists (GOOGLE_CALENDAR_CREDENTIALS_PATH cls)) then
    ValueErrorOf
      (lit "Google Calendar credentials file not found at: "
       ++ GOOGLE_CALENDAR_CREDENTIALS_PATH cls ++ nl
       ++ lit "Please download credentials.json from Google Cloud Console.")
  else Validated.

End Config.

(** ** whatsapp_client.py, the delivery *)

Module Twilio.

(** The arguments of [client.messages.create]. *)
Record request : Type := mk {
  body : str;
  from_ : str;
  to : option str
}.

(** What [client.messages.create] does: it returns a message, or raises a
    [TwilioRestException] or another exception, each with its text. *)
Inductive outcome : Type :=
| Created (sid status : str)
| RestException (text : str)
| OtherException (text : str).

End Twilio.

(** [send_message], lines 35-95: the value returned and the requests made
    to Twilio.  Console output is not part of the model. *)
Definition send_message (config : Config.t)
    (create : Twilio.request -> Twilio.outcome) (message : str)
    : bool * list Twilio.request :=
  if Config.DRY_RUN config then (true, [])
  else
    let request :=
      {| Twilio.body := message;
         Twilio.from_ := Config.TWILIO_WHATSAPP_FROM config;
         Twilio.to := Config.TWILIO_WHATSAPP_TO config |} in
    match create request with
    | Twilio.Created _ _ => (true, [request])
    | Twilio.RestException _ => (false, [request])
    | Twilio.OtherException _ => (false, [request])
    end.

(** [send_summary] over a delivery function that also reports its
    requests. *)
Definition send_summary_traced {R : Type} (send_message : str -> R)
    (summary subject : str) : R :=
  let formatted_message := subject ++ nl ++ nl ++ summary in
  send_message (enforce formatted_message).

(** ** summariser.py, the request *)

Module Claude.

(** The arguments of [client.messages.create]. *)
Record request : Type := mk {
  model : str;
  max_tokens : Z;
  content : str
}.

(** What [client.messages.create] does: it returns a message, given here
    by the texts of its content blocks, or raises an exception with its
    text. *)
Inductive outcome : Type :=
| Message (texts : list str)
| Exception (text : str).

End Claude.

(** [_get_default_prompt], lines 51-68. *)
Definition _get_default_prompt : str :=
  lit "You are a helpful personal assistant analyzing a calendar for the week ahead."
  ++ nl ++ nl
  ++ lit "Your task is to:" ++ nl
  ++ lit "1. Summarize the upcoming week in a conversational, concise tone" ++ nl
  ++ lit "2. Group related meetings meaningfully" ++ nl
  ++ lit "3. Highlight any scheduling issues or conflicts (back-to-back meetings, etc.)" ++ nl
  ++ lit "4. Suggest preparation needs for important events" ++ nl
  ++ lit "5. For monthly look-ahead items: surface genuinely important items like deadlines, reminders, birthdays, or special occasions"
  ++ nl ++ nl
  ++ lit "Keep the tone helpful and conversational - like a smart assistant who knows the schedule well."
  ++ nl
  ++ lit "Avoid being robotic or overly formal. Be concise but insightful.".

(** [_load_prompt_template], lines 32-49: the content of the template file,
    or the default prompt when the file is not found ([None]). *)
Definition _load_prompt_template (file : option str) : str :=
  match file with
  | Some text => text
  | None => _get_default_prompt
  end.

Definition failure_prefix : str := lit "Failed to generate summary: ".

Section Generate.

Context {lib : DatetimeLib}.

(** [generate_summary], lines 167-220: the value returned or the exception
    raised, and the requests made to the model. *)
Definition generate_summary (prompt_template : str)
    (create : Claude.request -> Claude.outcome)
    (weekly_events : list Event.t) (monthly_events : option (list Event.t))
    : result str * list Claude.request :=
  match _format_events_for_claude weekly_events monthly_events with
  | Raise e => (Raise e, [])
  | Ok events_text =>
      let user_message := prompt_template ++ nl ++ nl ++ events_text in
      let request :=
        {| Claude.model := lit "claude-3-5-sonnet-20241022";
           Claude.max_tokens := 1500;
           Claude.content := user_message |} in
      match create request with
      | Claude.Message (text :: _) => (Ok text, [request])
      | Claude.Message [] =>
          (Ok (failure_prefix ++ lit "list index out of range"), [request])
      | Claude.Exception text => (Ok (failure_prefix ++ text), [request])
      end
  end.

End Generate.

(** ** main.py *)

(** The parsed command line. *)
Record Args : Type := mk_args {
  dry_run : bool;
  verbose : bool;
  weekly_only : bool
}.

(** What [parser.parse_args()] does with the command line. *)
Inductive parse_result : Type :=
| Parsed (args : Args)
| HelpShown
| UsageError.

(** What a call of the calendar service does: it gives a reply or raises
    [HttpError] (both inside [api_reply]), or raises something else. *)
Inductive fetch : Type :=
| Fetched (reply : api_reply)
| FetchRaised.

(** What the run meets outside the program. *)
Record World : Type := mk_world {
  path_exists : str -> bool;
  clients_start : bool;
  prompt_file : option str;
  weekly_fetch : fetch;
  monthly_fetch : fetch;
  claude : Claude.request -> Claude.outcome;
  twilio : Twilio.request -> Twilio.outcome
}.

(** What a run leaves behind. *)
Record Run : Type := mk_run {
  exit_code : Z;
  claude_requests : list Claude.request;
  twilio_requests : list Twilio.request
}.

(** Lines 62-65: the command line overrides the configuration. *)
Definition override (args : Args) (config : Config.t) : Config.t :=
  {| Config.GOOGLE_CALENDAR_CREDENTIALS_PATH :=
       Config.GOOGLE_CALENDAR_CREDENTIALS_PATH config;
     Config.GOOGLE_CALENDAR_TOKEN_PATH :=
       Config.GOOGLE_CALENDAR_TOKEN_PATH config;
     Config.CALENDAR_ID := Config.CALENDAR_ID config;
     Config.ANTHROPIC_API_KEY := Config.ANTHROPIC_API_KEY config;
     Config.TWILIO_ACCOUNT_SID := Config.TWILIO_ACCOUNT_SID config;
     Config.TWILIO_AUTH_TOKEN := Config.TWILIO_AUTH_TOKEN config;
     Config.TWILIO_WHATSAPP_FROM := Config.TWILIO_WHATSAPP_FROM config;
     Config.TWILIO_WHATSAPP_TO := Config.TWILIO_WHATSAPP_TO config;
     Config.DRY_RUN := if dry_run args then true else Config.DRY_RUN config;
     Config.VERBOSE := if verbose args then true else Config.VERBOSE config |}.

(** [get_weekly_events] and [get_monthly_events], lines 215-231: a call of
    [get_events]; [None] when an exception leaves it. *)
Definition fetched_events (f : fetch) : option (list Event.t) :=
  match f with
  | FetchRaised => None
  | Fetched reply =>
      match get_events reply with
      | Ok events => Some events
      | Raise _ => None
      end
  end.

(** Lines 101-104: the monthly events, [None] (inside [Some]) when the
    look-ahead is skipped; the outer [None] when an exception leaves the
    fetch. *)
Definition fetch_monthly (args : Args) (world : World)
    : option (option (list Event.t)) :=
  if negb (weekly_only args)
  then option_map Some (fetched_events (monthly_fetch world))
  else Some None.

(** A run that ends before anything is asked or sent. *)
Definition stopped (code : Z) : Run :=
  {| exit_code := code; claude_requests := []; twilio_requests := [] |}.

Section Main.

Context {lib : DatetimeLib}.

(** [main] from line 61 on, once [parser.parse_args()] has returned the
    flags.  Console output is not part of the model. *)
Definition main (args : Args) (config : Config.t) (world : World) : Run :=
  let config := override args config in
  match Config.validate config (path_exists world) with
  | Config.ValueErrorOf _ => stopped 1
  | Config.Validated =>
      if negb (clients_start world) then stopped 1
      else
        let prompt_template := _load_prompt_template (prompt_file world) in
        match fetched_events (weekly_fetch world) with
        | None => stopped 1
        | Some weekly_events =>
            match fetch_monthly args world with
            | None => stopped 1
            | Some monthly_events =>
                if negb (truthy weekly_events)
                   && negb (truthy (get monthly_events []))
                then stopped 0
                else
                  match
                    generate_summary prompt_template (claude world)
                      weekly_events monthly_events
                  with
                  | (Raise _, asked) =>
                      {| exit_code := 1;
                         claude_requests := asked;
                         twilio_requests := [] |}
                  | (Ok summary, asked) =>
                      let (success, sent) :=
                        send_summary_traced
                          (send_message config (twilio world))
                          summary default_subject in
                      {| exit_code := if success then 0 else 1;
                         claude_requests := asked;
                         twilio_requests := sent |}
                  end
            end
        end
  end.

(** [main], lines 30-164: [parser.parse_args()] of line 59 returns the
    flags, or ends the program by itself, with status 0 after printing the
    help and with status 2 on a command line it does not accept; in both
    cases before anything else is done. *)
Definition run_main (command_line : parse_result) (config : Config.t)
    (world : World) : Run :=
  match command_line with
  | HelpShown => stopped 0
  | UsageError => stopped 2
  | Parsed args => main args config world
  end.

End Main.

(** ** Sample configuration and worlds *)

Module SampleRun.

Definition config : Config.t :=
  {| Config.GOOGLE_CALENDAR_CREDENTIALS_PATH := lit "./credentials.json";
     Config.GOOGLE_CALENDAR_TOKEN_PATH := lit "./token.json";
     Config.CALENDAR_ID := lit "primary";
     Config.ANTHROPIC_API_KEY := Some (lit "sk-key");
     Config.TWILIO_ACCOUNT_SID := Some (lit "AC1");
     Config.TWILIO_AUTH_TOKEN := Some (lit "token");
     Config.TWILIO_WHATSAPP_FROM := lit "whatsapp:+14155238886";
     Config.TWILIO_WHATSAPP_TO := Some (lit "whatsapp:+10000000000");
     Config.DRY_RUN := false;
     Config.VERBOSE := false |}.

(** No API key, and an empty auth token. *)
Definition config_unset : Config.t :=
  {| Config.GOOGLE_CALENDAR_CREDENTIALS_PATH := lit "./credentials.json";
     Config.GOOGLE_CALENDAR_TOKEN_PATH := lit "./token.json";
     Config.CALENDAR_ID := lit "primary";
     Config.ANTHROPIC_API_KEY := None;
     Config.TWILIO_ACCOUNT_SID := Some (lit "AC1");
     Config.TWILIO_AUTH_TOKEN := Some [];
     Config.TWILIO_WHATSAPP_FROM := lit "whatsapp:+14155238886";
     Config.TWILIO_WHATSAPP_TO := Some (lit "whatsapp:+10000000000");
     Config.DRY_RUN := false;
     Config.VERBOSE := false |}.

Definition no_flags : Args :=
  {| dry_run := false; verbose := false; weekly_only := false |}.

Definition only_weekly : Args :=
  {| dry_run := false; verbose := false; weekly_only := true |}.

Definition dry : Args :=
  {| dry_run := true; verbose := false; weekly_only := true |}.

(** A world in which the provider answers, the model fails and Twilio
    accepts. *)
Definition world (weekly monthly : fetch) : World :=
  {| path_exists := fun _ => true;
     clients_start := true;
     prompt_file := None;
     weekly_fetch := weekly;
     monthly_fetch := monthly;
     claude := fun _ => Claude.Exception (lit "overloaded");
     twilio := fun _ => Twilio.Created (lit "SM1") (lit "queued") |}.

Definition week : fetch :=
  Fetched (Reply (Some [Sample.raw_standup; Sample.raw_declined])).

Definition broken_week : fetch :=
  Fetched (Reply (Some [Sample.raw_standup; Sample.raw_no_start])).

End SampleRun.

(** * Properties of the model *)

(** ** Strings *)

Lemma str_eqb_eq (a b : str) : str_eqb a b = true <-> a = b.
Proof.
  revert b; induction a as [|x a IH]; intros [|y b]; simpl;
    try (split; [discriminate | discriminate]); try tauto.
  rewrite andb_true_iff, N.eqb_eq, IH.
  split; [intros [-> ->]; reflexivity | intros H; injection H; auto].
Qed.

Lemma truthy_false {A : Type} (l : list A) : truthy l = false <-> l = [].
Proof. destruct l; simpl; split; congruence. Qed.

Lemma last_indep {A : Type} (l : list A) (a b : A) :
  l <> [] -> last l a = last l b.
Proof.
  induction l as [|x [|y l] IH]; intros H; [congruence | reflexivity |].
  change (last (y :: l) a = last (y :: l) b). apply IH. discriminate.
Qed.

(** ** The declined filter *)

Lemma _is_declined_loop_true (l : list Raw.Attendee.t) :
  _is_declined_loop l = true <->
  exists a, In a l /\ Raw.Attendee.self a = Some true
            /\ Raw.Attendee.responseStatus a = Some (lit "declined").
Proof.
  induction l as [|x l IH]; simpl.
  - split; [discriminate | intros (a & [] & _)].
  - destruct (Raw.Attendee.self x) as [[|]|] eqn:Hself; simpl.
    + destruct (Raw.Attendee.responseStatus x) as [s|] eqn:Hst.
      * destruct (str_eqb s (lit "declined")) eqn:Heq.
        -- apply str_eqb_eq in Heq; subst s.
           split; [intros _; exists x; auto | reflexivity].
        -- rewrite IH. split.
           ++ intros (a & Hin & Ha); exists a; auto.
           ++ intros (a & [<- | Hin] & Hs & Hd); [| exists a; auto].
              rewrite Hst in Hd. injection Hd as ->.
              assert (str_eqb (lit "declined") (lit "declined") = true)
                by (apply str_eqb_eq; reflexivity).
              congruence.
      * rewrite IH. split.
        -- intros (a & Hin & Ha); exists a; auto.
        -- intros (a & [<- | Hin] & Hs & Hd); [congruence | exists a; auto].
    + rewrite IH. split.
      * intros (a & Hin & Ha); exists a; auto.
      * intros (a & [<- | Hin] & Hs & Hd); [congruence | exists a; auto].
    + rewrite IH. split.
      * intros (a & Hin & Ha); exists a; auto.
      * intros (a & [<- | Hin] & Hs & Hd); [congruence | exists a; auto].
Qed.

Lemma _is_declined_iff (event : Raw.Event.t) :
  _is_declined event = true <-> self_declined event.
Proof. apply _is_declined_loop_true. Qed.

Lemma get_events_loop_skip (event : Raw.Event.t) :
  _is_declined event = true ->
  forall before after filtered,
    get_events_loop (before ++ event :: after) filtered
    = get_events_loop (before ++ after) filtered.
Proof.
  intros Hd before after.
  induction before as [|x before IH]; intros filtered; simpl.
  - rewrite Hd. reflexivity.
  - destruct (_is_declined x); [apply IH |].
    destruct (_process_event x); simpl; [apply IH | reflexivity].
Qed.

(** C2. A raw record in which some attendee entry is the user's own and says
    "declined" yields no event: [_is_declined] holds of it, alone it gives
    the empty list, and anywhere in a batch [get_events] returns what it
    returns for the batch without that record. *)
Theorem declined_record_yields_no_event (event : Raw.Event.t) :
  self_declined event ->
  _is_declined event = true
  /\ get_events (Reply (Some [event])) = Ok []
  /\ forall before after,
       get_events (Reply (Some (before ++ event :: after)))
       = get_events (Reply (Some (before ++ after))).
Proof.
  intros H. apply _is_declined_iff in H.
  split; [exact H | split].
  - simpl. rewrite H. reflexivity.
  - intros before after. simpl. apply get_events_loop_skip. exact H.
Qed.

Lemma declined_record_yields_no_event_witness :
  self_declined Sample.raw_declined
  /\ get_events (Reply (Some [Sample.raw_declined])) = Ok []
  /\ get_events (Reply (Some [Sample.raw_standup; Sample.raw_declined]))
     = get_events (Reply (Some [Sample.raw_standup])).
Proof.
  assert (H : self_declined Sample.raw_declined).
  { exists Sample.me_declined. simpl. auto. }
  split; [exact H | split].
  - exact (proj1 (proj2 (declined_record_yields_no_event H))).
  - exact (proj2 (proj2 (declined_record_yields_no_event H))
             [Sample.raw_standup] []).
Defined.

(** ** Malformed records *)

Lemma _process_event_raises (event : Raw.Event.t) (e : exn) :
  _process_event event = Raise e ->
  malformed event /\ (e = KeyError (lit "start") \/ e = KeyError (lit "end")).
Proof.
  unfold _process_event, malformed.
  destruct (Raw.Event.start event) as [s|]; simpl.
  - destruct (Raw.Event.end_ event) as [en|]; simpl; [discriminate |].
    intros H; injection H as <-. auto.
  - intros H; injection H as <-. auto.
Qed.

Lemma _process_event_malformed (event : Raw.Event.t) :
  malformed event -> exists e, _process_event event = Raise e.
Proof.
  unfold _process_event, malformed.
  destruct (Raw.Event.start event) as [s|]; simpl; [| eauto].
  destruct (Raw.Event.end_ event) as [en|]; simpl; [| eauto].
  intros [H | H]; discriminate.
Qed.

Lemma get_events_loop_aborts (events : list Raw.Event.t) :
  (exists r, In r events /\ _is_declined r = false /\ malformed r) ->
  forall filtered,
  exists key,
    get_events_loop events filtered = Raise (KeyError key)
    /\ (key = lit "start" \/ key = lit "end").
Proof.
  induction events as [|x events IH]; intros (r & Hin & Hnd & Hbad) filtered.
  - destruct Hin.
  - simpl. destruct (_is_declined x) eqn:Hx.
    + apply IH. exists r. destruct Hin as [-> | Hin]; [congruence | auto].
    + destruct (_process_event x) as [e | e] eqn:Hp; simpl.
      * apply IH. exists r. destruct Hin as [-> | Hin]; [| auto].
        destruct (_process_event_malformed Hbad) as (e' & He'). congruence.
      * destruct (_process_event_raises _ Hp) as (_ & [-> | ->]); eauto.
Qed.

(** C4, as the code has it.  A record that lacks its start or end mapping
    and is not declined makes [get_events] raise the [KeyError] of the
    missing key: the failure reaches the caller, and with it the whole batch
    is lost; no record of the batch is returned. *)
Theorem malformed_record_aborts_batch (events : list Raw.Event.t) :
  (exists r, In r events /\ _is_declined r = false /\ malformed r) ->
  exists key,
    get_events (Reply (Some events)) = Raise (KeyError key)
    /\ (key = lit "start" \/ key = lit "end").
Proof.
  intros H. simpl. apply get_events_loop_aborts. exact H.
Qed.

Lemma malformed_record_aborts_batch_witness :
  exists key,
    get_events (Reply (Some [Sample.raw_standup; Sample.raw_no_start]))
    = Raise (KeyError key)
    /\ (key = lit "start" \/ key = lit "end").
Proof.
  apply (@malformed_record_aborts_batch
           [Sample.raw_standup; Sample.raw_no_start]).
  exists Sample.raw_no_start. split; [simpl; auto | split].
  - reflexivity.
  - left. reflexivity.
Defined.

(** C4, as the specification has it, fails: the well-formed record next to a
    malformed one is normalised when it is alone, and is not returned when
    the malformed record is in the batch, before it or after it. *)
Lemma malformed_record_loses_the_batch :
  (exists e, get_events (Reply (Some [Sample.raw_standup])) = Ok [e])
  /\ get_events (Reply (Some [Sample.raw_standup; Sample.raw_no_start]))
     = Raise (KeyError (lit "start"))
  /\ get_events (Reply (Some [Sample.raw_no_start; Sample.raw_standup]))
     = Raise (KeyError (lit "start")).
Proof.
  split; [eexists; reflexivity | split; reflexivity].
Qed.

(** ** Start, end and the all-day flag *)

Lemma _process_event_ok (event : Raw.Event.t) (e : Event.t) :
  _process_event event = Ok e ->
  exists s en,
    Raw.Event.start event = Some s
    /\ Raw.Event.end_ event = Some en
    /\ Event.start e = time_value s
    /\ Event.end_ e = time_value en
    /\ Event.is_all_day e = has_date s
    /\ Event.attendees e
       = process_attendees (get (Raw.Event.attendees event) []).
Proof.
  unfold _process_event.
  destruct (Raw.Event.start event) as [s|]; simpl; [| discriminate].
  destruct (Raw.Event.end_ event) as [en|]; simpl; [| discriminate].
  intros H; injection H as <-. exists s, en. simpl. auto 10.
Qed.

Lemma time_value_prefers_timestamp (d : Raw.Time.t) :
  (forall v, Raw.Time.dateTime d = Some v -> time_value d = Some v)
  /\ (Raw.Time.dateTime d = None -> time_value d = Raw.Time.date d).
Proof.
  unfold time_value. destruct (Raw.Time.dateTime d); split; congruence.
Qed.

(** C5, as the code has it.  For a record that [_process_event] accepts,
    start and end are read from the timestamp field when the mapping has
    one and from the date-only field otherwise, and [is_all_day] is true
    exactly when the start mapping has a date-only field; when the start
    mapping does not carry both fields, that is exactly when the start
    field read is the date-only one.  The end is read from its own mapping,
    independently of the flag. *)
Theorem all_day_flag_follows_date_key (event : Raw.Event.t) (e : Event.t) :
  _process_event event = Ok e ->
  exists s en,
    Raw.Event.start event = Some s
    /\ Raw.Event.end_ event = Some en
    /\ (forall v, Raw.Time.dateTime s = Some v -> Event.start e = Some v)
    /\ (Raw.Time.dateTime s = None -> Event.start e = Raw.Time.date s)
    /\ (forall v, Raw.Time.dateTime en = Some v -> Event.end_ e = Some v)
    /\ (Raw.Time.dateTime en = None -> Event.end_ e = Raw.Time.date en)
    /\ (Event.is_all_day e = true <-> Raw.Time.date s <> None)
    /\ (Raw.Time.dateTime s = None \/ Raw.Time.date s = None ->
        (Event.is_all_day e = true <-> field_used s = DateOnlyField)).
Proof.
  intros H.
  destruct (_process_event_ok _ H) as (s & en & Hs & Hen & -> & -> & -> & _).
  exists s, en.
  destruct (time_value_prefers_timestamp s) as [Hs1 Hs2].
  destruct (time_value_prefers_timestamp en) as [He1 He2].
  repeat split; auto; unfold has_date, field_used in *;
    destruct (Raw.Time.dateTime s), (Raw.Time.date s);
    try congruence; try discriminate; intuition congruence.
Qed.

Lemma all_day_flag_follows_date_key_witness :
  exists e s en,
    _process_event Sample.raw_mixed = Ok e
    /\ Raw.Event.start Sample.raw_mixed = Some s
    /\ Raw.Event.end_ Sample.raw_mixed = Some en
    /\ (forall v, Raw.Time.dateTime s = Some v -> Event.start e = Some v)
    /\ (Raw.Time.dateTime s = None -> Event.start e = Raw.Time.date s)
    /\ (forall v, Raw.Time.dateTime en = Some v -> Event.end_ e = Some v)
    /\ (Raw.Time.dateTime en = None -> Event.end_ e = Raw.Time.date en)
    /\ (Event.is_all_day e = true <-> Raw.Time.date s <> None)
    /\ (Raw.Time.dateTime s = None \/ Raw.Time.date s = None ->
        (Event.is_all_day e = true <-> field_used s = DateOnlyField)).
Proof.
  eexists.
  destruct (@all_day_flag_follows_date_key Sample.raw_mixed _ eq_refl)
    as (s & en & H).
  exists s, en. split; [reflexivity | exact H].
Defined.

(** C5, as the specification has it, fails.  When the start mapping carries
    both fields the timestamp is the start read and the event is all-day
    all the same; and a date-only start with a timestamp end gives an
    all-day event whose end is a timestamp. *)
Lemma all_day_flag_disagrees_with_field_read :
  (exists s e,
     Raw.Event.start Sample.raw_both = Some s
     /\ _process_event Sample.raw_both = Ok e
     /\ Event.is_all_day e = true
     /\ field_used s = TimestampField
     /\ Event.start e = Raw.Time.dateTime s)
  /\ (exists s en e,
        Raw.Event.start Sample.raw_mixed = Some s
        /\ Raw.Event.end_ Sample.raw_mixed = Some en
        /\ _process_event Sample.raw_mixed = Ok e
        /\ Event.is_all_day e = true
        /\ field_used s = DateOnlyField
        /\ field_used en = TimestampField
        /\ Event.end_ e = Raw.Time.dateTime en).
Proof.
  split.
  - do 2 eexists. repeat split; reflexivity.
  - do 3 eexists. repeat split; reflexivity.
Qed.

(** Every event that [_process_event] builds is one the renderer accepts. *)
Lemma _process_event_renderable (event : Raw.Event.t) (e : Event.t) :
  _process_event event = Ok e -> renderable e.
Proof.
  intros H.
  destruct (_process_event_ok _ H) as (s & en & _ & _ & Hs & _ & Hd & _).
  unfold renderable. rewrite Hs, Hd. unfold has_date, time_value.
  destruct (Raw.Time.dateTime s), (Raw.Time.date s); congruence.
Qed.

(** ** Attendees *)

Lemma process_attendees_fold (l : list Raw.Attendee.t) (acc : list Attendee.t) :
  fold_left
    (fun attendees attendee =>
       if negb (get (Raw.Attendee.self attendee) false)
       then attendees ++ [attendee_ref attendee]
       else attendees)
    l acc
  = acc ++ map attendee_ref (filter non_self l).
Proof.
  revert acc; induction l as [|a l IH]; intros acc; simpl.
  - rewrite app_nil_r. reflexivity.
  - rewrite IH. unfold non_self.
    destruct (negb (get (Raw.Attendee.self a) false)); simpl.
    + rewrite <- app_assoc. reflexivity.
    + reflexivity.
Qed.

Lemma process_attendees_filter (l : list Raw.Attendee.t) :
  process_attendees l = map attendee_ref (filter non_self l).
Proof. unfold process_attendees. apply process_attendees_fold. Qed.

(** C6. For a record that [_process_event] accepts, the attendees of the
    event are the references of the entries that are not the user's own, in
    order, and of no others; the reference of such an entry has status
    [unknown] when the entry has no responseStatus, and the entry's email
    as its name when the entry has no displayName. *)
Theorem attendees_are_the_non_self_entries
    (event : Raw.Event.t) (e : Event.t) :
  _process_event event = Ok e ->
  Event.attendees e
  = map attendee_ref (filter non_self (get (Raw.Event.attendees event) []))
  /\ (forall a,
        In a (get (Raw.Event.attendees event) []) ->
        get (Raw.Attendee.self a) false = true ->
        ~ In a (filter non_self (get (Raw.Event.attendees event) [])))
  /\ (forall a,
        In a (get (Raw.Event.attendees event) []) ->
        get (Raw.Attendee.self a) false = false ->
        In (attendee_ref a) (Event.attendees e)
        /\ (Raw.Attendee.responseStatus a = None ->
            Attendee.status (attendee_ref a) = unknown)
        /\ (Raw.Attendee.displayName a = None ->
            Attendee.name (attendee_ref a) = Raw.Attendee.email a)).
Proof.
  intros H.
  destruct (_process_event_ok _ H) as (s & en & _ & _ & _ & _ & _ & Hatt).
  rewrite Hatt, process_attendees_filter.
  split; [reflexivity | split].
  - intros a _ Hself Hin. apply filter_In in Hin as [_ Hns].
    unfold non_self in Hns. rewrite Hself in Hns. discriminate.
  - intros a Hin Hself. split; [| split].
    + apply in_map, filter_In. split; [exact Hin |].
      unfold non_self. rewrite Hself. reflexivity.
    + intros Hst. simpl. exact Hst.
    + intros Hn. simpl. rewrite Hn. reflexivity.
Qed.

Lemma attendees_are_the_non_self_entries_witness :
  exists e,
    _process_event Sample.raw_declined = Ok e
    /\ Event.attendees e = [attendee_ref Sample.ann]
    /\ Attendee.status (attendee_ref Sample.ann) = unknown
    /\ Attendee.name (attendee_ref Sample.ann) = Some (lit "ann@example.com").
Proof.
  eexists. split; [reflexivity |].
  destruct (@attendees_are_the_non_self_entries Sample.raw_declined _ eq_refl)
    as (Hall & _ & Hin).
  destruct (Hin Sample.ann (or_introl eq_refl) eq_refl) as (_ & Hst & Hname).
  split; [exact Hall | split; [exact (Hst eq_refl) | exact (Hname eq_refl)]].
Defined.

(** ** Message bounds *)

Lemma length_truncation_marker : length truncation_marker = 25.
Proof. reflexivity. Qed.

Lemma enforce_short (message : str) :
  length message <= 1600 -> enforce message = message.
Proof.
  intros H. unfold enforce.
  destruct (1600 <? length message) eqn:E; [| reflexivity].
  apply Nat.ltb_lt in E. lia.
Qed.

Lemma enforce_long (message : str) :
  1600 < length message ->
  enforce message = firstn 1550 message ++ truncation_marker.
Proof.
  intros H. unfold enforce.
  destruct (1600 <? length message) eqn:E; [reflexivity |].
  apply Nat.ltb_ge in E. lia.
Qed.

Lemma enforce_length (message : str) : length (enforce message) <= 1600.
Proof.
  destruct (Nat.le_gt_cases (length message) 1600) as [H | H].
  - rewrite enforce_short by exact H. exact H.
  - rewrite enforce_long by exact H.
    rewrite length_app, length_firstn, length_truncation_marker. lia.
Qed.

(** What [send_summary] hands to the delivery function is bounded. *)
Lemma send_summary_bounded (send_message : str -> bool) (summary subject : str) :
  exists message,
    send_summary send_message summary subject = send_message message
    /\ message = enforce (subject ++ nl ++ nl ++ summary)
    /\ length message <= 1600.
Proof.
  eexists. split; [reflexivity | split; [reflexivity | apply enforce_length]].
Qed.

(** C3. [enforce] returns a message of at most 1600 characters unchanged,
    and otherwise its first 1550 characters followed by the truncation
    marker; the result has at most 1600 characters in every case. *)
Theorem enforce_bounds (message : str) :
  (length message <= 1600 -> enforce message = message)
  /\ (1600 < length message ->
      enforce message = firstn 1550 message ++ truncation_marker)
  /\ length (enforce message) <= 1600.
Proof.
  split; [apply enforce_short | split; [apply enforce_long |]].
  apply enforce_length.
Qed.

(** C8. [enforce] is idempotent. *)
Theorem enforce_idempotent (s : str) : enforce (enforce s) = enforce s.
Proof. apply enforce_short, enforce_length. Qed.

(** ** Rendering of one event *)

Lemma desc_preview_short (description : str) :
  length description <= 200 -> desc_preview description = description.
Proof.
  intros H. unfold desc_preview.
  destruct (200 <? length description) eqn:E; [| reflexivity].
  apply Nat.ltb_lt in E. lia.
Qed.

Lemma desc_preview_long (description : str) :
  200 < length description ->
  desc_preview description = firstn 200 description ++ lit "...".
Proof.
  intros H. unfold desc_preview.
  destruct (200 <? length description) eqn:E; [reflexivity |].
  apply Nat.ltb_ge in E. lia.
Qed.

Section Rendering.

Context {lib : DatetimeLib}.

Lemma time_str_of_total (event : Event.t) :
  renderable event -> exists time_str, time_str_of event = Ok time_str.
Proof.
  unfold renderable, time_str_of. intros H.
  destruct (Event.is_all_day event).
  - destruct (Event.start event); [eauto | exfalso; apply H; reflexivity].
  - match goal with |- context [match ?m with _ => _ end] => destruct m end;
      eauto.
Qed.

Lemma _format_single_event_block (event : Event.t) (time_str : str) :
  time_str_of event = Ok time_str ->
  _format_single_event event
  = Ok ([bullet] ++ lit " " ++ Event.summary event ++ nl
        ++ lit "  Time: " ++ time_str ++ nl
        ++ location_line (Event.location event)
        ++ description_line (Event.description event)
        ++ attendees_line (Event.attendees event)).
Proof.
  intros H. unfold _format_single_event. rewrite H.
  unfold bind, location_line, description_line, attendees_line.
  cbv beta iota zeta.
  destruct (Event.location event), (Event.description event),
    (Event.attendees event); cbn [truthy]; cbv iota;
    repeat rewrite <- app_assoc; reflexivity.
Qed.

(** C9. The block of an event the renderer accepts is its title line, its
    time line, and the optional location, description and attendee lines in
    that order.  The description line is absent when the description is
    empty; it carries the description as it is when that has at most 200
    characters, and its first 200 characters followed by "..." when it has
    more. *)
Theorem description_is_rendered_truncated (event : Event.t) :
  renderable event ->
  exists time_str,
    time_str_of event = Ok time_str
    /\ _format_single_event event
       = Ok ([bullet] ++ lit " " ++ Event.summary event ++ nl
             ++ lit "  Time: " ++ time_str ++ nl
             ++ location_line (Event.location event)
             ++ description_line (Event.description event)
             ++ attendees_line (Event.attendees event))
    /\ (Event.description event = [] ->
        description_line (Event.description event) = [])
    /\ (Event.description event <> [] ->
        length (Event.description event) <= 200 ->
        description_line (Event.description event)
        = lit "  Description: " ++ Event.description event ++ nl)
    /\ (200 < length (Event.description event) ->
        description_line (Event.description event)
        = lit "  Description: " ++ firstn 200 (Event.description event)
          ++ lit "..." ++ nl).
Proof.
  intros H. destruct (time_str_of_total H) as (time_str & Ht).
  exists time_str. split; [exact Ht |].
  split; [apply _format_single_event_block; exact Ht |].
  unfold description_line.
  destruct (Event.description event) as [|c d] eqn:Hd.
  - split; [reflexivity | split; [congruence | simpl; lia]].
  - split; [discriminate | split].
    + intros _ Hlen. rewrite desc_preview_short by exact Hlen. reflexivity.
    + intros Hlen. rewrite desc_preview_long by exact Hlen.
      rewrite <- app_assoc. reflexivity.
Qed.

Lemma renderable_block (event : Event.t) :
  renderable event -> exists block, _format_single_event event = Ok block.
Proof.
  intros H. destruct (time_str_of_total H) as (t & Ht).
  eexists. apply _format_single_event_block. exact Ht.
Qed.

Lemma render_loop_blocks (events : list Event.t) :
  Forall renderable events ->
  exists blocks,
    Forall2 (fun e b => _format_single_event e = Ok b) events blocks
    /\ forall output,
         render_loop events output
         = Ok (output ++ concat (map (fun b => b ++ nl) blocks)).
Proof.
  induction 1 as [|e events He _ (blocks & Hall & Hout)].
  - exists []. split; [constructor |].
    intros output. simpl. rewrite app_nil_r. reflexivity.
  - destruct (renderable_block He) as (b & Hb).
    exists (b :: blocks). split; [constructor; assumption |].
    intros output. cbn [render_loop]. rewrite Hb. cbn [bind].
    rewrite Hout. cbn [map concat]. rewrite <- !app_assoc. reflexivity.
Qed.

Lemma render_loop_returned (events : list Event.t) :
  forall output text,
    render_loop events output = Ok text ->
    exists blocks,
      Forall2 (fun e b => _format_single_event e = Ok b) events blocks
      /\ text = output ++ concat (map (fun b => b ++ nl) blocks).
Proof.
  induction events as [|e events IH]; intros output text; cbn [render_loop].
  - intros H; injection H as <-. exists []. split; [constructor |].
    simpl. rewrite app_nil_r. reflexivity.
  - destruct (_format_single_event e) as [b | x] eqn:Hb; cbn [bind];
      [| discriminate].
    intros H. destruct (IH _ _ H) as (blocks & Hall & ->).
    exists (b :: blocks). split; [constructor; assumption |].
    cbn [map concat]. rewrite <- !app_assoc. reflexivity.
Qed.

End Rendering.

Lemma description_is_rendered_truncated_witness :
  renderable (Sample.described 250)
  /\ exists time_str,
       _format_single_event (lib := Rfc3339.lib) (Sample.described 250)
       = Ok ([bullet] ++ lit " Notes" ++ nl
             ++ lit "  Time: " ++ time_str ++ nl
             ++ lit "  Description: " ++ repeat 120%N 200 ++ lit "..." ++ nl).
Proof.
  assert (H : renderable (Sample.described 250))
    by (intros _; discriminate).
  split; [exact H |].
  destruct (@description_is_rendered_truncated Rfc3339.lib _ H)
    as (time_str & _ & Hblock & _ & _ & Hlong).
  exists time_str. rewrite Hblock, Hlong.
  - reflexivity.
  - apply Nat.ltb_lt. reflexivity.
Defined.

(** ** The summary request *)

Section Builder.

Context {lib : DatetimeLib}.

(** C10. With an empty monthly list the output is the one built with no
    monthly list at all: the weekly text alone, with no monthly header and
    no monthly event. *)
Theorem empty_monthly_is_no_monthly (weekly : list Event.t) :
  _format_events_for_claude weekly (Some [])
  = _format_events_for_claude weekly None
  /\ _format_events_for_claude weekly None = weekly_text weekly.
Proof.
  unfold _format_events_for_claude. simpl.
  destruct (weekly_text weekly); split; reflexivity.
Qed.

Lemma weekly_end_of_last (weekly : list Event.t) (default : Event.t)
    (w : datetime) :
  weekly <> [] ->
  parse_iso (Event.start (last weekly default)) = Ok w ->
  weekly_end_of weekly = Ok (Some w).
Proof.
  intros Hne Hw. unfold weekly_end_of.
  destruct weekly as [|first rest]; [congruence |].
  rewrite (last_indep first default Hne), Hw. reflexivity.
Qed.

Lemma future_loop_filter (w : datetime) (monthly : list Event.t) :
  (forall e, In e monthly -> compares_with w e) ->
  forall future_events,
    future_loop (Some w) monthly future_events
    = Ok (future_events ++ filter (starts_after w) monthly).
Proof.
  induction monthly as [|event rest IH]; intros Hall future_events; simpl.
  - rewrite app_nil_r. reflexivity.
  - destruct (Hall event (or_introl eq_refl)) as (d & Hd & Haw).
    unfold starts_after at 1. rewrite Hd. simpl.
    unfold datetime_gt. rewrite Haw, Bool.eqb_reflx. simpl.
    rewrite IH by (intros e He; apply Hall; right; exact He).
    destruct (instant w <? instant d)%Z; [| reflexivity].
    rewrite <- app_assoc. reflexivity.
Qed.

Lemma future_loop_no_weekly_end (monthly : list Event.t) :
  (forall e, In e monthly -> start_parses e) ->
  forall future_events,
    future_loop None monthly future_events = Ok future_events.
Proof.
  induction monthly as [|event rest IH]; intros Hall future_events; simpl.
  - reflexivity.
  - destruct (Hall event (or_introl eq_refl)) as (d & Hd).
    rewrite Hd. simpl. apply IH. intros e He. apply Hall. right. exact He.
Qed.

(** A monthly start that does not compare with [weekly_end] stops the loop
    with a [TypeError]. *)
Lemma future_loop_mixed (w d : datetime) (event : Event.t)
    (rest future_events : list Event.t) :
  parse_iso (Event.start event) = Ok d ->
  is_aware d <> is_aware w ->
  future_loop (Some w) (event :: rest) future_events = Raise TypeError.
Proof.
  intros Hd Haw. simpl. rewrite Hd. simpl. unfold datetime_gt.
  destruct (is_aware d), (is_aware w); simpl; congruence.
Qed.

Lemma starts_after_iff (w : datetime) (event : Event.t) :
  starts_after w event = true <->
  exists d, parse_iso (Event.start event) = Ok d
            /\ (instant w < instant d)%Z.
Proof.
  unfold starts_after. destruct (parse_iso (Event.start event)) as [d | x].
  - rewrite Z.ltb_lt. split.
    + intros H. exists d. auto.
    + intros (d' & Hd' & H). injection Hd' as <-. exact H.
  - split; [discriminate | intros (d & Hd & _); discriminate].
Qed.

Lemma compares_with_renderable (w : datetime) (event : Event.t) :
  compares_with w event -> renderable event.
Proof.
  intros (d & Hd & _) _ Hnone. rewrite Hnone in Hd. discriminate Hd.
Qed.

(** X23. For a non-empty weekly sequence whose last start parses to
    [weekly_end], and monthly events whose starts parse to datetimes of
    the same kind (naive or aware) as [weekly_end], the future events are
    the monthly events that start strictly later than [weekly_end], in
    their order: a monthly event is among them if and only if its start is
    strictly later.  The output is the weekly text followed, when there is
    such an event, by the monthly header and the blocks of exactly those
    events, each followed by a newline. *)
Theorem monthly_section_is_events_after_weekly_end
    (weekly monthly : list Event.t) (default : Event.t)
    (weekly_end : datetime) :
  weekly <> [] ->
  parse_iso (Event.start (last weekly default)) = Ok weekly_end ->
  (forall e, In e monthly -> compares_with weekly_end e) ->
  future_events_of weekly monthly
  = Ok (filter (starts_after weekly_end) monthly)
  /\ (forall e,
        In e (filter (starts_after weekly_end) monthly) <->
        In e monthly
        /\ exists d, parse_iso (Event.start e) = Ok d
                     /\ (instant weekly_end < instant d)%Z)
  /\ exists blocks,
       Forall2 (fun e b => _format_single_event e = Ok b)
         (filter (starts_after weekly_end) monthly) blocks
       /\ _format_events_for_claude weekly (Some monthly)
          = (weekly_part <- weekly_text weekly ;;
             Ok (weekly_part
                 ++ match blocks with
                    | [] => []
                    | _ :: _ =>
                        monthly_header
                        ++ concat (map (fun b => b ++ nl) blocks)
                    end)).
Proof.
  intros Hne Hw Hall.
  assert (Hfut : future_events_of weekly monthly
                 = Ok (filter (starts_after weekly_end) monthly)).
  { unfold future_events_of.
    rewrite (weekly_end_of_last default Hne Hw). simpl.
    rewrite future_loop_filter by exact Hall. reflexivity. }
  split; [exact Hfut | split].
  - intros e. rewrite filter_In, starts_after_iff. reflexivity.
  - assert (Hrender : Forall renderable
                        (filter (starts_after weekly_end) monthly)).
    { apply Forall_forall. intros e He. apply filter_In in He as [He _].
      exact (compares_with_renderable (Hall e He)). }
    destruct (render_loop_blocks Hrender) as (blocks & Hblocks & Hout).
    exists blocks. split; [exact Hblocks |].
    unfold _format_events_for_claude.
    destruct (weekly_text weekly) as [output | x]; cbn [bind];
      [| reflexivity].
    destruct monthly as [|m monthly'].
    + inversion Hblocks. cbn [get truthy]. rewrite app_nil_r. reflexivity.
    + cbn [get truthy]. rewrite Hfut. cbn [bind]. unfold monthly_section.
      destruct (filter (starts_after weekly_end) (m :: monthly'))
        as [|f fs].
      * inversion Hblocks. cbn [truthy]. rewrite app_nil_r. reflexivity.
      * inversion Hblocks; subst. cbn [truthy]. rewrite Hout.
        rewrite <- !app_assoc. reflexivity.
Qed.

(** C7, as the code has it.  With an empty weekly sequence there is no
    [weekly_end], and no monthly event passes the test of the loop: when the
    monthly starts parse, there is no future event and the output is the
    weekly header and the sentence for an empty week, with no monthly
    section. *)
Theorem empty_weekly_omits_monthly (monthly : list Event.t) :
  (forall e, In e monthly -> start_parses e) ->
  future_events_of [] monthly = Ok []
  /\ _format_events_for_claude [] (Some monthly)
     = Ok (weekly_header ++ no_events_sentence).
Proof.
  intros Hall.
  assert (Hfut : future_events_of [] monthly = Ok []).
  { unfold future_events_of. simpl. apply future_loop_no_weekly_end, Hall. }
  split; [exact Hfut |].
  unfold _format_events_for_claude. simpl.
  destruct monthly as [|m monthly']; [reflexivity |].
  cbn [truthy]. rewrite Hfut. reflexivity.
Qed.

End Builder.

Lemma monthly_section_is_events_after_weekly_end_witness :
  future_events_of (lib := Rfc3339.lib)
    [Sample.standup; Sample.review] [Sample.early; Sample.late]
  = Ok [Sample.late]
  /\ exists blocks,
       Forall2
         (fun e b => _format_single_event (lib := Rfc3339.lib) e = Ok b)
         [Sample.late] blocks
       /\ _format_events_for_claude (lib := Rfc3339.lib)
            [Sample.standup; Sample.review]
            (Some [Sample.early; Sample.late])
          = (weekly_part <- weekly_text (lib := Rfc3339.lib)
                              [Sample.standup; Sample.review] ;;
             Ok (weekly_part
                 ++ match blocks with
                    | [] => []
                    | _ :: _ =>
                        monthly_header
                        ++ concat (map (fun b => b ++ nl) blocks)
                    end)).
Proof.
  assert (Hall : forall e, In e [Sample.early; Sample.late] ->
                 compares_with (lib := Rfc3339.lib)
                   (mk_datetime 2024 1 12 15 0 0 0 (Some 3600%Z)) e).
  { intros e [<- | [<- | []]]; eexists; split; reflexivity. }
  assert (Hne : [Sample.standup; Sample.review] <> []) by discriminate.
  destruct (@monthly_section_is_events_after_weekly_end Rfc3339.lib
              [Sample.standup; Sample.review] [Sample.early; Sample.late]
              Sample.standup
              (mk_datetime 2024 1 12 15 0 0 0 (Some 3600%Z))
              Hne eq_refl Hall)
    as (Hfut & _ & Hout).
  split; [exact Hfut | exact Hout].
Defined.

(** C1. The code does not keep the claim on every monthly sequence.  A
    week of timed events, the last starting at 2024-01-12T15:00:00+01:00,
    and a monthly all-day event on 2024-01-20, both as [_process_event]
    builds them, make [_format_events_for_claude] raise [TypeError] at the
    comparison of line 108: the monthly event starts strictly later than
    [weekly_end] and is not included, since no output is built at all. *)
Theorem timed_week_with_all_day_monthly_event_raises :
  _process_event Sample.raw_review = Ok Sample.review
  /\ _process_event Sample.raw_holiday = Ok Sample.holiday
  /\ parse_iso (lib := Rfc3339.lib) (Event.start Sample.review)
     = Ok (mk_datetime 2024 1 12 15 0 0 0 (Some 3600%Z))
  /\ parse_iso (lib := Rfc3339.lib) (Event.start Sample.holiday)
     = Ok (mk_datetime 2024 1 20 0 0 0 0 None)
  /\ (exists text,
        weekly_text (lib := Rfc3339.lib) [Sample.standup; Sample.review]
        = Ok text)
  /\ future_events_of (lib := Rfc3339.lib)
       [Sample.standup; Sample.review] [Sample.holiday]
     = Raise TypeError
  /\ _format_events_for_claude (lib := Rfc3339.lib)
       [Sample.standup; Sample.review] (Some [Sample.holiday])
     = Raise TypeError.
Proof.
  repeat split; try reflexivity.
  eexists. reflexivity.
Qed.

Lemma empty_weekly_omits_monthly_witness :
  _format_events_for_claude (lib := Rfc3339.lib) []
    (Some [Sample.early; Sample.late])
  = Ok (weekly_header ++ no_events_sentence).
Proof.
  refine (proj2 (@empty_weekly_omits_monthly Rfc3339.lib
                   [Sample.early; Sample.late] _)).
  intros e [<- | [<- | []]]; eexists; reflexivity.
Defined.

(** C7, as the specification has it, fails: with an empty weekly sequence
    and one monthly event, no future event is kept and the output has no
    monthly section, where the claim has the event included. *)
Lemma empty_weekly_drops_every_monthly_event :
  future_events_of (lib := Rfc3339.lib) [] [Sample.late] = Ok []
  /\ _format_events_for_claude (lib := Rfc3339.lib) [] (Some [Sample.late])
     = Ok (weekly_header ++ no_events_sentence)
  /\ monthly_section (lib := Rfc3339.lib)
       (weekly_header ++ no_events_sentence) [Sample.late]
     <> Ok (weekly_header ++ no_events_sentence).
Proof.
  split; [reflexivity | split; [reflexivity |]].
  vm_compute. intros H. discriminate H.
Qed.

(** * Further properties *)

(** ** Batches of raw records *)

Lemma get_events_loop_well_formed (events : list Raw.Event.t) :
  (forall r, In r events -> _is_declined r = false -> ~ malformed r) ->
  forall filtered,
  exists l,
    get_events_loop events filtered = Ok (filtered ++ l)
    /\ Forall2 (fun r e => _process_event r = Ok e)
         (filter (fun r => negb (_is_declined r)) events) l.
Proof.
  induction events as [|x events IH]; intros Hwf filtered; simpl.
  - exists []. rewrite app_nil_r. auto.
  - assert (Hrest : forall r, In r events -> _is_declined r = false ->
                              ~ malformed r)
      by (intros r Hr; apply Hwf; right; exact Hr).
    destruct (_is_declined x) eqn:Hx; simpl.
    + apply IH, Hrest.
    + destruct (_process_event x) as [e | err] eqn:Hp; simpl.
      * destruct (IH Hrest (filtered ++ [e])) as (l & Hl & Hall).
        exists (e :: l). rewrite Hl, <- app_assoc. simpl. auto.
      * destruct (_process_event_raises _ Hp) as (Hbad & _).
        exfalso. exact (Hwf x (or_introl eq_refl) Hx Hbad).
Qed.

(** X1. [get_events] returns a list exactly when no record that is not
    declined lacks its start or end mapping; the list then holds the
    processed form of the records that are not declined, one for each, in
    the order of the reply. *)
Theorem get_events_returns_iff_well_formed (events : list Raw.Event.t) :
  ((exists l, get_events (Reply (Some events)) = Ok l) <->
   (forall r, In r events -> _is_declined r = false -> ~ malformed r))
  /\ (forall l,
        get_events (Reply (Some events)) = Ok l ->
        Forall2 (fun r e => _process_event r = Ok e)
          (filter (fun r => negb (_is_declined r)) events) l).
Proof.
  simpl. split; [split |].
  - intros (l & Hl) r Hin Hnd Hbad.
    destruct (@get_events_loop_aborts events
                (ex_intro _ r (conj Hin (conj Hnd Hbad))) [])
      as (key & Hk & _).
    congruence.
  - intros Hwf. destruct (@get_events_loop_well_formed events Hwf []) as (l & Hl & _).
    exists l. exact Hl.
  - intros l Hl.
    assert (Hwf : forall r, In r events -> _is_declined r = false ->
                            ~ malformed r).
    { intros r Hin Hnd Hbad.
      destruct (@get_events_loop_aborts events
                  (ex_intro _ r (conj Hin (conj Hnd Hbad))) [])
        as (key & Hk & _).
      congruence. }
    destruct (@get_events_loop_well_formed events Hwf []) as (l' & Hl' & Hall).
    simpl in Hl'. congruence.
Qed.

Lemma get_events_loop_renderable (events : list Raw.Event.t) :
  forall filtered l,
    Forall renderable filtered ->
    get_events_loop events filtered = Ok l ->
    Forall renderable l.
Proof.
  induction events as [|x events IH]; intros filtered l Hacc; simpl.
  - intros H; injection H as <-. exact Hacc.
  - destruct (_is_declined x); [apply IH; exact Hacc |].
    destruct (_process_event x) as [e | err] eqn:Hp; simpl; [| discriminate].
    apply IH. apply Forall_app. split; [exact Hacc |].
    constructor; [exact (_process_event_renderable _ Hp) | constructor].
Qed.

Lemma get_events_renderable (reply : api_reply) (l : list Event.t) :
  get_events reply = Ok l -> Forall renderable l.
Proof.
  destruct reply as [| items]; simpl.
  - intros H; injection H as <-. constructor.
  - apply get_events_loop_renderable. constructor.
Qed.

(** ** Message bounds, continued *)

(** X2. The length after [enforce] is the length of the message up to 1600
    characters and 1575 beyond, and the message comes back unchanged
    exactly when it has at most 1600 characters. *)
Theorem enforce_length_exact (message : str) :
  length (enforce message)
  = (if length message <=? 1600 then length message else 1575)
  /\ (enforce message = message <-> length message <= 1600).
Proof.
  destruct (Nat.le_gt_cases (length message) 1600) as [H | H].
  - rewrite (proj2 (Nat.leb_le _ _) H), enforce_short by exact H.
    split; [reflexivity | tauto].
  - assert (Hlen : length (enforce message) = 1575).
    { rewrite enforce_long by exact H.
      rewrite length_app, length_firstn, length_truncation_marker. lia. }
    rewrite (proj2 (Nat.leb_gt _ _) H).
    split; [exact Hlen |].
    split; [intros Heq; rewrite Heq in Hlen; lia | lia].
Qed.

(** X3. When the subject and the blank line after it fit in 1550
    characters, [send_summary] delivers the subject, a blank line and then
    the summary: whole when the message has at most 1600 characters, and
    otherwise its first [1548 - len(subject)] characters followed by the
    truncation marker. *)
Theorem send_summary_keeps_subject (send_message : str -> bool)
    (summary subject : str) :
  length subject + 2 <= 1550 ->
  exists body,
    send_summary send_message summary subject
    = send_message (subject ++ nl ++ nl ++ body)
    /\ (length subject + 2 + length summary <= 1600 -> body = summary)
    /\ (1600 < length subject + 2 + length summary ->
        body = firstn (1548 - length subject) summary ++ truncation_marker).
Proof.
  intros Hsub. unfold send_summary.
  assert (Hlen : length (subject ++ nl ++ nl ++ summary)
                 = length subject + 2 + length summary).
  { rewrite !length_app. cbn [length nl]. lia. }
  destruct (Nat.le_gt_cases (length subject + 2 + length summary) 1600)
    as [H | H].
  - exists summary. rewrite enforce_short by lia.
    split; [reflexivity | split; [reflexivity | lia]].
  - exists (firstn (1548 - length subject) summary ++ truncation_marker).
    rewrite enforce_long by lia.
    split; [| split; [lia | reflexivity]].
    f_equal.
    assert (Hhead : length (subject ++ nl ++ nl) = length subject + 2)
      by (rewrite !length_app; cbn [length nl]; lia).
    replace (subject ++ nl ++ nl ++ summary)
      with ((subject ++ nl ++ nl) ++ summary)
      by (rewrite <- !app_assoc; reflexivity).
    rewrite firstn_app, firstn_all2 by lia.
    rewrite Hhead.
    replace (1550 - (length subject + 2)) with (1548 - length subject) by lia.
    rewrite <- !app_assoc. reflexivity.
Qed.

Lemma send_summary_keeps_subject_witness :
  exists body,
    send_summary (fun _ => true) (repeat 120%N 2000) default_subject
    = (fun _ : str => true) (default_subject ++ nl ++ nl ++ body)
    /\ (length default_subject + 2 + length (repeat 120%N 2000) <= 1600 ->
        body = repeat 120%N 2000)
    /\ (1600 < length default_subject + 2 + length (repeat 120%N 2000) ->
        body = firstn (1548 - length default_subject) (repeat 120%N 2000)
               ++ truncation_marker).
Proof.
  apply (@send_summary_keeps_subject (fun _ => true) (repeat 120%N 2000)
           default_subject).
  apply Nat.leb_le. reflexivity.
Defined.

(** ** Rendering, continued *)

Lemma split_head_no_sep (c : char) (s : str) :
  contains c (split_head c s) = false.
Proof.
  induction s as [|x s IH]; [reflexivity |]. simpl.
  destruct (N.eqb x c) eqn:E; [reflexivity |]. simpl.
  rewrite N.eqb_sym, E. exact IH.
Qed.

Lemma split_head_prefix (c : char) (s : str) :
  exists rest, s = split_head c s ++ rest.
Proof.
  induction s as [|x s (rest & IH)]; [exists []; reflexivity |]. simpl.
  destruct (N.eqb x c); [exists (x :: s); reflexivity |].
  exists rest. simpl. f_equal. exact IH.
Qed.

Lemma split_head_absent (c : char) (s : str) :
  contains c s = false -> split_head c s = s.
Proof.
  induction s as [|x s IH]; [reflexivity |]. simpl.
  rewrite N.eqb_sym. destruct (N.eqb x c); simpl; [discriminate |].
  intros H. f_equal. apply IH, H.
Qed.

Section RenderingMore.

Context {lib : DatetimeLib}.

(** X4. The time line of an all-day event with a start string is the part
    of the string before its first "T", followed by " (All Day)"; that part
    is a prefix of the start with no "T" in it, whatever the start looks
    like, and no date is parsed. *)
Theorem all_day_event_shows_date_part (event : Event.t) (s : str) :
  Event.is_all_day event = true ->
  Event.start event = Some s ->
  time_str_of event = Ok (split_head chr_T s ++ lit " (All Day)")
  /\ contains chr_T (split_head chr_T s) = false
  /\ exists rest, s = split_head chr_T s ++ rest.
Proof.
  intros Hall Hs. unfold time_str_of. rewrite Hall, Hs.
  split; [| split; [apply split_head_no_sep | apply split_head_prefix]].
  destruct (contains chr_T s) eqn:E; [reflexivity |].
  rewrite split_head_absent by exact E. reflexivity.
Qed.

(** X5. A timed event always renders.  Its time line is the formatted
    start and end when both parse, and otherwise the two raw values joined
    by " - ", a missing value showing as "None". *)
Theorem timed_event_always_renders (event : Event.t) :
  Event.is_all_day event = false ->
  exists time_str block,
    time_str_of event = Ok time_str
    /\ _format_single_event event = Ok block
    /\ (forall start_dt end_dt,
          parse_iso (Event.start event) = Ok start_dt ->
          parse_iso (Event.end_ event) = Ok end_dt ->
          time_str = strftime start_dt "%Y-%m-%d %H:%M" ++ lit " - "
                     ++ strftime end_dt "%H:%M")
    /\ ((exists x, parse_iso (Event.start event) = Raise x)
        \/ (exists x, parse_iso (Event.end_ event) = Raise x) ->
        time_str = fmt (Event.start event) ++ lit " - "
                   ++ fmt (Event.end_ event)).
Proof.
  intros Htimed.
  assert (Ht : exists time_str,
             time_str_of event = Ok time_str
             /\ (forall start_dt end_dt,
                   parse_iso (Event.start event) = Ok start_dt ->
                   parse_iso (Event.end_ event) = Ok end_dt ->
                   time_str = strftime start_dt "%Y-%m-%d %H:%M" ++ lit " - "
                              ++ strftime end_dt "%H:%M")
             /\ ((exists x, parse_iso (Event.start event) = Raise x)
                 \/ (exists x, parse_iso (Event.end_ event) = Raise x) ->
                 time_str = fmt (Event.start event) ++ lit " - "
                            ++ fmt (Event.end_ event))).
  { unfold time_str_of. rewrite Htimed.
    destruct (parse_iso (Event.start event)) as [sd | xs]; simpl.
    - destruct (parse_iso (Event.end_ event)) as [ed | xe]; simpl.
      + eexists. split; [reflexivity | split].
        * intros sd' ed' Hsd Hed. injection Hsd as <-. injection Hed as <-.
          reflexivity.
        * intros [(x & Hx) | (x & Hx)]; discriminate.
      + eexists. split; [reflexivity | split].
        * intros sd' ed' _ Hed. discriminate.
        * reflexivity.
    - eexists. split; [reflexivity | split].
      + intros sd' ed' Hsd _. discriminate.
      + reflexivity. }
  destruct Ht as (time_str & Hts & Hfmt & Hraw).
  exists time_str. eexists.
  split; [exact Hts | split; [| split; [exact Hfmt | exact Hraw]]].
  apply _format_single_event_block. exact Hts.
Qed.

(** X6. The text of a sequence of events the renderer accepts is the text
    before it followed by the blocks of the events, in order, each followed
    by one newline. *)
Theorem render_loop_joins_blocks (events : list Event.t) (output : str) :
  Forall renderable events ->
  exists blocks,
    Forall2 (fun e b => _format_single_event e = Ok b) events blocks
    /\ render_loop events output
       = Ok (output ++ concat (map (fun b => b ++ nl) blocks)).
Proof.
  intros H. destruct (render_loop_blocks H) as (blocks & Hall & Hout).
  exists blocks. split; [exact Hall | apply Hout].
Qed.

Lemma render_loop_extends (events : list Event.t) :
  forall output text,
    render_loop events output = Ok text ->
    exists suffix, text = output ++ suffix.
Proof.
  induction events as [|e events IH]; intros output text; simpl.
  - intros H; injection H as <-. exists []. rewrite app_nil_r. reflexivity.
  - destruct (_format_single_event e) as [b | x]; simpl; [| discriminate].
    intros H. destruct (IH _ _ H) as (suffix & ->).
    exists (b ++ nl ++ suffix). rewrite <- !app_assoc. reflexivity.
Qed.

(** X7. Whatever [_format_events_for_claude] returns is the weekly
    header; then the sentence for an empty week, or the blocks of the
    weekly events in order, each followed by a newline; then, when the
    future events computed from the monthly list are not empty, the monthly
    header and the blocks of exactly those events in order, each followed
    by a newline.  With no monthly list, or an empty one, there are no
    future events. *)
Theorem output_is_weekly_text_then_monthly (weekly : list Event.t)
    (monthly : option (list Event.t)) (text : str) :
  _format_events_for_claude weekly monthly = Ok text ->
  exists weekly_blocks future monthly_blocks,
    Forall2 (fun e b => _format_single_event e = Ok b) weekly weekly_blocks
    /\ (truthy (get monthly []) = true ->
        future_events_of weekly (get monthly []) = Ok future)
    /\ (truthy (get monthly []) = false -> future = [])
    /\ Forall2 (fun e b => _format_single_event e = Ok b)
         future monthly_blocks
    /\ text
       = weekly_header
         ++ match weekly with
            | [] => no_events_sentence
            | _ :: _ => concat (map (fun b => b ++ nl) weekly_blocks)
            end
         ++ match future with
            | [] => []
            | _ :: _ =>
                monthly_header
                ++ concat (map (fun b => b ++ nl) monthly_blocks)
            end.
Proof.
  unfold _format_events_for_claude.
  destruct (weekly_text weekly) as [weekly_part | x] eqn:Hw; cbn [bind];
    [| discriminate].
  intros H.
  assert (Hweekly : exists weekly_blocks,
             Forall2 (fun e b => _format_single_event e = Ok b)
               weekly weekly_blocks
             /\ weekly_part
                = weekly_header
                  ++ match weekly with
                     | [] => no_events_sentence
                     | _ :: _ =>
                         concat (map (fun b => b ++ nl) weekly_blocks)
                     end).
  { unfold weekly_text in Hw. destruct weekly as [|w ws]; cbn [truthy negb] in Hw.
    - injection Hw as <-. exists []. split; [constructor | reflexivity].
    - apply render_loop_returned in Hw. exact Hw. }
  destruct Hweekly as (weekly_blocks & Hwb & ->).
  exists weekly_blocks.
  destruct (truthy (get monthly [])) eqn:Hm.
  - destruct (future_events_of weekly (get monthly [])) as [future | x]
      eqn:Hfut; cbn [bind] in H; [| discriminate].
    unfold monthly_section in H. destruct future as [|f fs]; cbn [truthy] in H.
    + injection H as <-. exists [], [].
      split; [exact Hwb | split; [reflexivity | split; [reflexivity |]]].
      split; [constructor |]. rewrite app_nil_r. reflexivity.
    + apply render_loop_returned in H. destruct H as (blocks & Hb & ->).
      exists (f :: fs), blocks.
      split; [exact Hwb | split; [reflexivity | split; [discriminate |]]].
      split; [exact Hb |]. rewrite <- !app_assoc. reflexivity.
  - injection H as <-. exists [], [].
    split; [exact Hwb | split; [discriminate | split; [reflexivity |]]].
    split; [constructor |]. rewrite app_nil_r. reflexivity.
Qed.

(** X8. The events that [get_events] returns always render: the weekly
    text and the output built from them alone are returned, never raised,
    whatever the records held. *)
Theorem fetched_events_always_render (reply : api_reply)
    (weekly : list Event.t) :
  get_events reply = Ok weekly ->
  exists text,
    weekly_text weekly = Ok text
    /\ _format_events_for_claude weekly None = Ok text.
Proof.
  intros H. apply get_events_renderable in H.
  assert (Hw : exists text, weekly_text weekly = Ok text).
  { unfold weekly_text. destruct (negb (truthy weekly)); [eauto |].
    destruct (render_loop_blocks H) as (blocks & _ & Hout).
    eexists. apply Hout. }
  destruct Hw as (text & Hw). exists text. split; [exact Hw |].
  unfold _format_events_for_claude. rewrite Hw. reflexivity.
Qed.

Lemma future_loop_app (weekly_end : option datetime)
    (before after : list Event.t) :
  forall future_events,
    future_loop weekly_end (before ++ after) future_events
    = (kept <- future_loop weekly_end before future_events ;;
       future_loop weekly_end after kept).
Proof.
  induction before as [|e before IH]; intros future_events; simpl;
    [reflexivity |].
  destruct (parse_iso (Event.start e)) as [d | x]; simpl; [| reflexivity].
  destruct (beyond weekly_end d) as [keep | x]; simpl; [| reflexivity].
  apply IH.
Qed.

(** X9. When the weekly text renders and the last weekly start parses to a
    datetime of one kind (naive or aware), the first monthly event whose
    start parses to the other kind makes [_format_events_for_claude] raise
    [TypeError]: a date-only weekly end against a timed monthly event, or
    the reverse, builds no output. *)
Theorem mixed_start_kinds_raise_type_error
    (weekly before after : list Event.t) (default event : Event.t)
    (weekly_end d : datetime) (text : str) :
  weekly <> [] ->
  weekly_text weekly = Ok text ->
  parse_iso (Event.start (last weekly default)) = Ok weekly_end ->
  (forall e, In e before -> compares_with weekly_end e) ->
  parse_iso (Event.start event) = Ok d ->
  is_aware d <> is_aware weekly_end ->
  _format_events_for_claude weekly (Some (before ++ event :: after))
  = Raise TypeError.
Proof.
  intros Hne Htext Hw Hbefore Hd Hkind.
  unfold _format_events_for_claude. rewrite Htext. simpl.
  assert (Htruthy : truthy (before ++ event :: after) = true)
    by (destruct before; reflexivity).
  rewrite Htruthy. unfold future_events_of.
  rewrite (weekly_end_of_last default Hne Hw). cbn [bind].
  rewrite future_loop_app, future_loop_filter by exact Hbefore. cbn [bind].
  rewrite (@future_loop_mixed lib weekly_end d event after _ Hd Hkind).
  reflexivity.
Qed.

End RenderingMore.

Lemma all_day_event_shows_date_part_witness :
  time_str_of (lib := Rfc3339.lib) (Sample.described 3)
  = Ok (lit "2024-01-08 (All Day)").
Proof.
  exact (proj1 (@all_day_event_shows_date_part Rfc3339.lib
                  (Sample.described 3) (lit "2024-01-08") eq_refl eq_refl)).
Defined.

Lemma timed_event_always_renders_witness :
  exists time_str block,
    time_str_of (lib := Rfc3339.lib) Sample.standup = Ok time_str
    /\ _format_single_event (lib := Rfc3339.lib) Sample.standup = Ok block.
Proof.
  destruct (@timed_event_always_renders Rfc3339.lib Sample.standup eq_refl)
    as (time_str & block & Ht & Hb & _).
  exists time_str, block. split; [exact Ht | exact Hb].
Defined.

Lemma render_loop_joins_blocks_witness :
  exists blocks,
    Forall2 (fun e b => _format_single_event (lib := Rfc3339.lib) e = Ok b)
      [Sample.standup; Sample.described 3] blocks
    /\ render_loop (lib := Rfc3339.lib)
         [Sample.standup; Sample.described 3] weekly_header
       = Ok (weekly_header ++ concat (map (fun b => b ++ nl) blocks)).
Proof.
  apply (@render_loop_joins_blocks Rfc3339.lib).
  repeat constructor; intros H; discriminate.
Defined.

Lemma output_is_weekly_text_then_monthly_witness :
  exists text weekly_blocks monthly_blocks,
    _format_events_for_claude (lib := Rfc3339.lib)
      [Sample.standup; Sample.review] (Some [Sample.early; Sample.late])
    = Ok text
    /\ Forall2
         (fun e b => _format_single_event (lib := Rfc3339.lib) e = Ok b)
         [Sample.standup; Sample.review] weekly_blocks
    /\ Forall2
         (fun e b => _format_single_event (lib := Rfc3339.lib) e = Ok b)
         [Sample.late] monthly_blocks
    /\ text
       = weekly_header
         ++ concat (map (fun b => b ++ nl) weekly_blocks)
         ++ monthly_header
         ++ concat (map (fun b => b ++ nl) monthly_blocks).
Proof.
  eexists.
  destruct (@output_is_weekly_text_then_monthly Rfc3339.lib
              [Sample.standup; Sample.review]
              (Some [Sample.early; Sample.late]) _ eq_refl)
    as (weekly_blocks & future & monthly_blocks
        & Hwb & Hfut & _ & Hmb & Htext).
  specialize (Hfut eq_refl). injection Hfut as <-.
  exists weekly_blocks, monthly_blocks.
  split; [reflexivity | split; [exact Hwb | split; [exact Hmb |]]].
  exact Htext.
Defined.

Lemma fetched_events_always_render_witness :
  exists text,
    _format_events_for_claude (lib := Rfc3339.lib)
      [Sample.standup_event] None = Ok text.
Proof.
  destruct (@fetched_events_always_render Rfc3339.lib
              (Reply (Some [Sample.raw_standup; Sample.raw_declined]))
              [Sample.standup_event] eq_refl)
    as (text & _ & H).
  exists text. exact H.
Defined.

Lemma mixed_start_kinds_raise_type_error_witness :
  _format_events_for_claude (lib := Rfc3339.lib)
    [Sample.described 3] (Some [Sample.late])
  = Raise TypeError.
Proof.
  refine (@mixed_start_kinds_raise_type_error Rfc3339.lib
            [Sample.described 3] [] [] (Sample.described 3) Sample.late
            (mk_datetime 2024 1 8 0 0 0 0 None)
            (mk_datetime 2024 1 12 15 0 0 0 (Some 0%Z))
            _ _ eq_refl _ _ eq_refl _).
  - discriminate.
  - reflexivity.
  - intros e [].
  - discriminate.
Defined.

(** ** Configuration *)

Lemma missing_variables_filter (cls : Config.t) :
  Config.missing_variables cls
  = map fst
      (filter snd
         [(lit "ANTHROPIC_API_KEY", Config.unset (Config.ANTHROPIC_API_KEY cls));
          (lit "TWILIO_ACCOUNT_SID", Config.unset (Config.TWILIO_ACCOUNT_SID cls));
          (lit "TWILIO_AUTH_TOKEN", Config.unset (Config.TWILIO_AUTH_TOKEN cls));
          (lit "TWILIO_WHATSAPP_TO", Config.unset (Config.TWILIO_WHATSAPP_TO cls))]).
Proof.
  unfold Config.missing_variables.
  destruct (Config.unset (Config.ANTHROPIC_API_KEY cls)),
    (Config.unset (Config.TWILIO_ACCOUNT_SID cls)),
    (Config.unset (Config.TWILIO_AUTH_TOKEN cls)),
    (Config.unset (Config.TWILIO_WHATSAPP_TO cls)); reflexivity.
Qed.

Lemma missing_variables_nil (cls : Config.t) :
  Config.missing_variables cls = [] <->
  Config.unset (Config.ANTHROPIC_API_KEY cls) = false
  /\ Config.unset (Config.TWILIO_ACCOUNT_SID cls) = false
  /\ Config.unset (Config.TWILIO_AUTH_TOKEN cls) = false
  /\ Config.unset (Config.TWILIO_WHATSAPP_TO cls) = false.
Proof.
  rewrite missing_variables_filter.
  destruct (Config.unset (Config.ANTHROPIC_API_KEY cls)),
    (Config.unset (Config.TWILIO_ACCOUNT_SID cls)),
    (Config.unset (Config.TWILIO_AUTH_TOKEN cls)),
    (Config.unset (Config.TWILIO_WHATSAPP_TO cls)); simpl;
    split; try discriminate; try tauto; intros (? & ? & ? & ?); discriminate.
Qed.

Lemma validate_validated_iff (cls : Config.t) (path_exists : str -> bool) :
  Config.validate cls path_exists = Config.Validated <->
  Config.unset (Config.ANTHROPIC_API_KEY cls) = false
  /\ Config.unset (Config.TWILIO_ACCOUNT_SID cls) = false
  /\ Config.unset (Config.TWILIO_AUTH_TOKEN cls) = false
  /\ Config.unset (Config.TWILIO_WHATSAPP_TO cls) = false
  /\ path_exists (Config.GOOGLE_CALENDAR_CREDENTIALS_PATH cls) = true.
Proof.
  unfold Config.validate.
  destruct (Config.missing_variables cls) as [|m ms] eqn:Hm; cbn [truthy].
  - apply missing_variables_nil in Hm.
    destruct (path_exists (Config.GOOGLE_CALENDAR_CREDENTIALS_PATH cls));
      cbn [negb]; split; try tauto; try discriminate.
    intros (_ & _ & _ & _ & H); discriminate.
  - split; [discriminate |]. intros (H1 & H2 & H3 & H4 & _).
    assert (Hnil : Config.missing_variables cls = [])
      by (apply missing_variables_nil; auto).
    congruence.
Qed.

(** X10. [Config.validate] returns exactly when the four required
    variables are set to non-empty strings and the credentials file
    exists; an unset variable and one set to the empty string count the
    same. *)
Theorem validate_returns_iff (cls : Config.t) (path_exists : str -> bool) :
  (Config.validate cls path_exists = Config.Validated <->
   Config.unset (Config.ANTHROPIC_API_KEY cls) = false
   /\ Config.unset (Config.TWILIO_ACCOUNT_SID cls) = false
   /\ Config.unset (Config.TWILIO_AUTH_TOKEN cls) = false
   /\ Config.unset (Config.TWILIO_WHATSAPP_TO cls) = false
   /\ path_exists (Config.GOOGLE_CALENDAR_CREDENTIALS_PATH cls) = true)
  /\ (forall v, Config.unset v = false <-> exists c s, v = Some (c :: s)).
Proof.
  split; [apply validate_validated_iff |].
  intros [[|c s]|]; simpl; split; try discriminate; eauto.
  - intros (c & s & H); discriminate.
  - intros (c & s & H); discriminate.
Qed.

(** X11. When a required variable is unset, [Config.validate] raises a
    [ValueError] whose message lists the unset variables, in the fixed order
    API key, account SID, auth token, recipient, joined by ", "; the
    credentials file is not looked at. *)
Theorem validate_lists_unset_variables (cls : Config.t)
    (path_exists : str -> bool) :
  Config.missing_variables cls <> [] ->
  Config.validate cls path_exists
  = Config.ValueErrorOf
      (lit "Missing required environment variables: "
       ++ Config.join (lit ", ") (Config.missing_variables cls) ++ nl
       ++ lit "Please check your .env file or environment configuration.")
  /\ Config.missing_variables cls
     = map fst
         (filter snd
            [(lit "ANTHROPIC_API_KEY",
              Config.unset (Config.ANTHROPIC_API_KEY cls));
             (lit "TWILIO_ACCOUNT_SID",
              Config.unset (Config.TWILIO_ACCOUNT_SID cls));
             (lit "TWILIO_AUTH_TOKEN",
              Config.unset (Config.TWILIO_AUTH_TOKEN cls));
             (lit "TWILIO_WHATSAPP_TO",
              Config.unset (Config.TWILIO_WHATSAPP_TO cls))]).
Proof.
  intros Hne. split; [| apply missing_variables_filter].
  unfold Config.validate.
  destruct (Config.missing_variables cls); [congruence | reflexivity].
Qed.

Lemma validate_lists_unset_variables_witness :
  Config.validate SampleRun.config_unset (fun _ => false)
  = Config.ValueErrorOf
      (lit "Missing required environment variables: "
       ++ lit "ANTHROPIC_API_KEY, TWILIO_AUTH_TOKEN" ++ nl
       ++ lit "Please check your .env file or environment configuration.").
Proof.
  refine (proj1 (@validate_lists_unset_variables SampleRun.config_unset
                   (fun _ => false) _)).
  discriminate.
Defined.

Lemma validate_override (args : Args) (config : Config.t)
    (path_exists : str -> bool) :
  Config.validate (override args config) path_exists
  = Config.validate config path_exists.
Proof. reflexivity. Qed.

(** ** Delivery *)

Lemma enforce_keeps_head (head rest : str) :
  length head <= 1550 ->
  exists body, enforce (head ++ rest) = head ++ body.
Proof.
  intros Hhead.
  destruct (Nat.le_gt_cases (length (head ++ rest)) 1600) as [H | H].
  - exists rest. apply enforce_short, H.
  - exists (firstn (1550 - length head) rest ++ truncation_marker).
    rewrite enforce_long by exact H.
    rewrite firstn_app, firstn_all2 by exact Hhead.
    rewrite <- app_assoc. reflexivity.
Qed.

Lemma send_summary_traced_cases (config : Config.t)
    (create : Twilio.request -> Twilio.outcome) (summary subject : str) :
  (Config.DRY_RUN config = true
   /\ send_summary_traced (send_message config create) summary subject
      = (true, []))
  \/ (Config.DRY_RUN config = false
      /\ exists success,
           send_summary_traced (send_message config create) summary subject
           = (success,
              [ {| Twilio.body := enforce (subject ++ nl ++ nl ++ summary);
                   Twilio.from_ := Config.TWILIO_WHATSAPP_FROM config;
                   Twilio.to := Config.TWILIO_WHATSAPP_TO config |} ])
           /\ (success = true <->
               exists sid status,
                 create
                   {| Twilio.body := enforce (subject ++ nl ++ nl ++ summary);
                      Twilio.from_ := Config.TWILIO_WHATSAPP_FROM config;
                      Twilio.to := Config.TWILIO_WHATSAPP_TO config |}
                 = Twilio.Created sid status)).
Proof.
  unfold send_summary_traced, send_message.
  destruct (Config.DRY_RUN config); [left; auto | right].
  split; [reflexivity |].
  match goal with |- context [create ?q] => destruct (create q) as [sid st | t | t] end.
  - exists true. split; [reflexivity | split; eauto].
  - exists false. split; [reflexivity |].
    split; [discriminate | intros (sid & st & H); discriminate].
  - exists false. split; [reflexivity |].
    split; [discriminate | intros (sid & st & H); discriminate].
Qed.

(** X12. [send_summary] over [send_message] never raises and asks Twilio at
    most once.  In a dry run it asks nothing and reports success; otherwise
    it makes one request, whose body is the bounded message of at most 1600
    characters, from and to the configured numbers, and reports success
    exactly when Twilio created the message. *)
Theorem delivery_is_single_and_bounded (config : Config.t)
    (create : Twilio.request -> Twilio.outcome) (summary subject : str) :
  exists success sent,
    send_summary_traced (send_message config create) summary subject
    = (success, sent)
    /\ success
       = send_summary (fun m => fst (send_message config create m))
           summary subject
    /\ (Config.DRY_RUN config = true -> success = true /\ sent = [])
    /\ (Config.DRY_RUN config = false ->
        sent = [ {| Twilio.body := enforce (subject ++ nl ++ nl ++ summary);
                    Twilio.from_ := Config.TWILIO_WHATSAPP_FROM config;
                    Twilio.to := Config.TWILIO_WHATSAPP_TO config |} ]
        /\ (success = true <->
            exists sid status,
              create
                {| Twilio.body := enforce (subject ++ nl ++ nl ++ summary);
                   Twilio.from_ := Config.TWILIO_WHATSAPP_FROM config;
                   Twilio.to := Config.TWILIO_WHATSAPP_TO config |}
              = Twilio.Created sid status))
    /\ Forall (fun r => length (Twilio.body r) <= 1600) sent.
Proof.
  assert (Hfst : forall success sent,
             send_summary_traced (send_message config create) summary subject
             = (success, sent) ->
             success
             = send_summary (fun m => fst (send_message config create m))
                 summary subject).
  { unfold send_summary_traced, send_summary. intros success sent H.
    rewrite H. reflexivity. }
  destruct (send_summary_traced_cases config create summary subject)
    as [(Hdry & H) | (Hdry & success & H & Hiff)].
  - exists true, []. split; [exact H | split; [exact (Hfst _ _ H) |]].
    split; [auto | split; [congruence | constructor]].
  - eexists success, _. split; [exact H | split; [exact (Hfst _ _ H) |]].
    split; [congruence | split; [auto |]].
    constructor; [apply enforce_length | constructor].
Qed.

(** ** The request to the model *)

Section GenerateProperties.

Context {lib : DatetimeLib}.

Lemma generate_summary_cases (prompt_template : str)
    (create : Claude.request -> Claude.outcome)
    (weekly : list Event.t) (monthly : option (list Event.t)) :
  (exists e,
     _format_events_for_claude weekly monthly = Raise e
     /\ generate_summary prompt_template create weekly monthly = (Raise e, []))
  \/ (exists text summary,
        _format_events_for_claude weekly monthly = Ok text
        /\ generate_summary prompt_template create weekly monthly
           = (Ok summary,
              [ {| Claude.model := lit "claude-3-5-sonnet-20241022";
                   Claude.max_tokens := 1500;
                   Claude.content := prompt_template ++ nl ++ nl ++ text |} ])
        /\ (forall t rest,
              create
                {| Claude.model := lit "claude-3-5-sonnet-20241022";
                   Claude.max_tokens := 1500;
                   Claude.content := prompt_template ++ nl ++ nl ++ text |}
              = Claude.Message (t :: rest) -> summary = t)
        /\ (create
              {| Claude.model := lit "claude-3-5-sonnet-20241022";
                 Claude.max_tokens := 1500;
                 Claude.content := prompt_template ++ nl ++ nl ++ text |}
            = Claude.Message [] ->
            summary = failure_prefix ++ lit "list index out of range")
        /\ (forall t,
              create
                {| Claude.model := lit "claude-3-5-sonnet-20241022";
                   Claude.max_tokens := 1500;
                   Claude.content := prompt_template ++ nl ++ nl ++ text |}
              = Claude.Exception t -> summary = failure_prefix ++ t)).
Proof.
  unfold generate_summary.
  destruct (_format_events_for_claude weekly monthly) as [text | e];
    [right | left; eauto].
  exists text. cbv zeta.
  match goal with
  | |- context [create ?q] => destruct (create q) as [[|t rest] | t] eqn:Hq
  end.
  - eexists. split; [reflexivity | split; [reflexivity |]].
    split; [discriminate | split; [reflexivity | discriminate]].
  - eexists. split; [reflexivity | split; [reflexivity |]].
    split; [| split; discriminate].
    intros t' rest' H. injection H as <- _. reflexivity.
  - eexists. split; [reflexivity | split; [reflexivity |]].
    split; [discriminate | split; [discriminate |]].
    intros t' H. injection H as <-. reflexivity.
Qed.

(** X13. [generate_summary] raises only what the formatting of the events
    raises, and then asks the model nothing.  When the formatting returns
    it makes one request, whose content is the prompt template, a blank
    line and the formatted events, and it returns a string in every case:
    the text of the first content block, or "Failed to generate summary: "
    followed by the text of the exception when the call raises or the reply
    has no content block. *)
Theorem generate_summary_returns_failure_as_text (prompt_template : str)
    (create : Claude.request -> Claude.outcome)
    (weekly : list Event.t) (monthly : option (list Event.t)) :
  (forall e,
     _format_events_for_claude weekly monthly = Raise e ->
     generate_summary prompt_template create weekly monthly = (Raise e, []))
  /\ (forall text,
        _format_events_for_claude weekly monthly = Ok text ->
        exists summary,
          generate_summary prompt_template create weekly monthly
          = (Ok summary,
             [ {| Claude.model := lit "claude-3-5-sonnet-20241022";
                  Claude.max_tokens := 1500;
                  Claude.content := prompt_template ++ nl ++ nl ++ text |} ])
          /\ (forall t rest,
                create
                  {| Claude.model := lit "claude-3-5-sonnet-20241022";
                     Claude.max_tokens := 1500;
                     Claude.content := prompt_template ++ nl ++ nl ++ text |}
                = Claude.Message (t :: rest) -> summary = t)
          /\ (create
                {| Claude.model := lit "claude-3-5-sonnet-20241022";
                   Claude.max_tokens := 1500;
                   Claude.content := prompt_template ++ nl ++ nl ++ text |}
              = Claude.Message [] ->
              summary = failure_prefix ++ lit "list index out of range")
          /\ (forall t,
                create
                  {| Claude.model := lit "claude-3-5-sonnet-20241022";
                     Claude.max_tokens := 1500;
                     Claude.content := prompt_template ++ nl ++ nl ++ text |}
                = Claude.Exception t -> summary = failure_prefix ++ t)).
Proof.
  destruct (generate_summary_cases prompt_template create weekly monthly)
    as [(e & He & H) | (text & summary & Ht & H & Hrest)].
  - split.
    + intros e' He'. congruence.
    + intros text Ht. congruence.
  - split.
    + intros e He. congruence.
    + intros text' Ht'. assert (text' = text) by congruence. subst text'.
      exists summary. split; [exact H | exact Hrest].
Qed.

End GenerateProperties.

(** ** Runs of main *)

Section MainProperties.

Context {lib : DatetimeLib}.

(** The ways a run can go. *)
Lemma main_cases (args : Args) (config : Config.t) (world : World) :
  main args config world = stopped 1
  \/ main args config world = stopped 0
  \/ exists asked summary (success : bool) sent,
       main args config world
       = {| exit_code := if success then 0 else 1;
            claude_requests := [asked];
            twilio_requests := sent |}
       /\ send_summary_traced
            (send_message (override args config) (twilio world))
            summary default_subject
          = (success, sent).
Proof.
  unfold main. cbv zeta.
  destruct (Config.validate (override args config) (path_exists world));
    [| auto].
  destruct (clients_start world); cbn [negb]; [| auto].
  destruct (fetched_events (weekly_fetch world)) as [weekly |]; [| auto].
  destruct (fetch_monthly args world) as [monthly |]; [| auto].
  destruct (negb (truthy weekly) && negb (truthy (get monthly [])));
    [auto |].
  destruct (generate_summary_cases (_load_prompt_template (prompt_file world))
              (claude world) weekly monthly)
    as [(e & _ & H) | (text & summary & _ & H & _)]; rewrite H.
  - auto.
  - right. right.
    destruct (send_summary_traced
                (send_message (override args config) (twilio world))
                summary default_subject) as [success sent] eqn:Hs.
    eexists _, summary, success, sent. split; [reflexivity | exact Hs].
Qed.

Lemma main_invalid_configuration (args : Args) (config : Config.t)
    (world : World) :
  Config.validate config (path_exists world) <> Config.Validated ->
  main args config world = stopped 1.
Proof.
  intros H. unfold main. cbv zeta. rewrite validate_override.
  destruct (Config.validate config (path_exists world));
    [congruence | reflexivity].
Qed.

(** X14. When a required variable is unset or empty, or the credentials
    file is missing, every run whose command line [parse_args] accepts
    exits with code 1 and neither the model nor Twilio is asked anything,
    whatever the flags are.  A run that [parse_args] ends itself, with
    code 0 after the help or code 2 on a command line it does not accept,
    does not look at the configuration. *)
Theorem invalid_configuration_stops_the_run (config : Config.t)
    (world : World) :
  Config.unset (Config.ANTHROPIC_API_KEY config) = true
  \/ Config.unset (Config.TWILIO_ACCOUNT_SID config) = true
  \/ Config.unset (Config.TWILIO_AUTH_TOKEN config) = true
  \/ Config.unset (Config.TWILIO_WHATSAPP_TO config) = true
  \/ path_exists world (Config.GOOGLE_CALENDAR_CREDENTIALS_PATH config)
     = false ->
  (forall args, run_main (Parsed args) config world = stopped 1)
  /\ run_main HelpShown config world = stopped 0
  /\ run_main UsageError config world = stopped 2.
Proof.
  intros H. split; [| split; reflexivity].
  intros args. cbn [run_main]. apply main_invalid_configuration.
  intros Hv. apply validate_validated_iff in Hv.
  destruct Hv as (H1 & H2 & H3 & H4 & H5).
  destruct H as [H | [H | [H | [H | H]]]]; congruence.
Qed.

(** X15. In a dry run, asked for on the command line or in the
    environment, no request is ever made to Twilio. *)
Theorem dry_run_sends_nothing (args : Args) (config : Config.t)
    (world : World) :
  dry_run args = true \/ Config.DRY_RUN config = true ->
  twilio_requests (main args config world) = [].
Proof.
  intros Hdry.
  assert (Hcfg : Config.DRY_RUN (override args config) = true).
  { simpl. destruct (dry_run args); [reflexivity |].
    destruct Hdry; [discriminate | assumption]. }
  destruct (main_cases args config world)
    as [-> | [-> | (asked & summary & success & sent & -> & Hs)]];
    try reflexivity.
  destruct (send_summary_traced_cases (override args config) (twilio world)
              summary default_subject)
    as [(_ & H) | (Hno & _)]; [| congruence].
  simpl. congruence.
Qed.

(** X16. Every run of the program exits with code 0, 1 or 2, and with
    code 2 exactly when [parse_args] does not accept the command line.  It
    asks the model at most once and Twilio at most once, and asks Twilio
    only after it asked the model.  The body of a request to Twilio has at
    most 1600 characters and starts with the default subject and a blank
    line. *)
Theorem run_asks_once_and_sends_bounded (command_line : parse_result)
    (config : Config.t) (world : World) :
  (exit_code (run_main command_line config world) = 0%Z
   \/ exit_code (run_main command_line config world) = 1%Z
   \/ exit_code (run_main command_line config world) = 2%Z)
  /\ (exit_code (run_main command_line config world) = 2%Z <->
      command_line = UsageError)
  /\ length (claude_requests (run_main command_line config world)) <= 1
  /\ length (twilio_requests (run_main command_line config world)) <= 1
  /\ (twilio_requests (run_main command_line config world) <> [] ->
      claude_requests (run_main command_line config world) <> [])
  /\ Forall
       (fun r =>
          length (Twilio.body r) <= 1600
          /\ exists rest, Twilio.body r = default_subject ++ nl ++ nl ++ rest)
       (twilio_requests (run_main command_line config world)).
Proof.
  destruct command_line as [args | |]; cbn [run_main].
  - destruct (main_cases args config world)
      as [-> | [-> | (asked & summary & success & sent & -> & Hs)]];
      cbn [stopped exit_code claude_requests twilio_requests length].
    + repeat split; auto; try congruence; try discriminate.
    + repeat split; auto; try congruence; try discriminate.
    + assert (Hcode : (if success then 0%Z else 1%Z) <> 2%Z)
        by (destruct success; discriminate).
      destruct (send_summary_traced_cases (override args config)
                  (twilio world) summary default_subject)
        as [(_ & H) | (_ & success' & H & _)]; rewrite H in Hs;
        injection Hs as <- <-; cbn [length].
      * repeat split; auto; try congruence; try discriminate.
      * split; [destruct success'; auto |].
        repeat split; auto; try congruence; try discriminate.
        constructor; [| constructor].
        split; [apply enforce_length |].
        destruct (@enforce_keeps_head (default_subject ++ nl ++ nl) summary)
          as (body & Hbody); [apply Nat.leb_le; reflexivity |].
        exists body. rewrite <- !app_assoc in Hbody. exact Hbody.
  - cbn [stopped exit_code claude_requests twilio_requests length].
    repeat split; auto; try congruence; try discriminate.
  - cbn [stopped exit_code claude_requests twilio_requests length].
    repeat split; auto; try congruence; try discriminate.
Qed.

(** X17. An [HttpError] of the calendar service ends a valid run with exit
    code 0 and nothing asked or sent, as a week with no events does: the
    weekly fetch gives the empty list, and so does the monthly one unless
    it is skipped. *)
Theorem provider_error_ends_as_empty_week (args : Args) (config : Config.t)
    (world : World) :
  Config.validate config (path_exists world) = Config.Validated ->
  clients_start world = true ->
  weekly_fetch world = Fetched HttpError ->
  weekly_only args = true \/ monthly_fetch world = Fetched HttpError ->
  main args config world = stopped 0.
Proof.
  intros Hv Hstart Hweekly Hmonthly.
  unfold main. cbv zeta. rewrite validate_override, Hv, Hstart, Hweekly.
  cbn [negb fetched_events get_events]. unfold fetch_monthly.
  destruct (weekly_only args); cbn [negb].
  - reflexivity.
  - destruct Hmonthly as [H | H]; [discriminate |]. rewrite H. reflexivity.
Qed.

(** X18. A record without its start or end mapping that is not declined,
    in the weekly reply or in a monthly reply that is fetched, ends the run
    with exit code 1 before the model or Twilio is asked anything. *)
Theorem malformed_record_stops_the_run (args : Args) (config : Config.t)
    (world : World) (events : list Raw.Event.t) :
  (exists r, In r events /\ _is_declined r = false /\ malformed r) ->
  weekly_fetch world = Fetched (Reply (Some events))
  \/ (weekly_only args = false
      /\ monthly_fetch world = Fetched (Reply (Some events))) ->
  main args config world = stopped 1.
Proof.
  intros Hbad Hwhere.
  assert (Hnone : fetched_events (Fetched (Reply (Some events))) = None).
  { destruct (@get_events_loop_aborts events Hbad []) as (key & Hk & _).
    unfold fetched_events, get_events. cbn [get]. rewrite Hk. reflexivity. }
  unfold main. cbv zeta.
  destruct (Config.validate (override args config) (path_exists world));
    [| reflexivity].
  destruct (clients_start world); cbn [negb]; [| reflexivity].
  destruct Hwhere as [Hw | (Honly & Hm)].
  - rewrite Hw, Hnone. reflexivity.
  - destruct (fetched_events (weekly_fetch world)); [| reflexivity].
    unfold fetch_monthly. rewrite Honly, Hm, Hnone. reflexivity.
Qed.

(** X19. With --weekly-only the monthly fetch plays no part: two worlds
    that differ in nothing but what the monthly fetch would give lead to
    the same run. *)
Theorem weekly_only_ignores_monthly_fetch (args : Args) (config : Config.t)
    (world : World) (other : fetch) :
  weekly_only args = true ->
  main args config world
  = main args config
      {| path_exists := path_exists world;
         clients_start := clients_start world;
         prompt_file := prompt_file world;
         weekly_fetch := weekly_fetch world;
         monthly_fetch := other;
         claude := claude world;
         twilio := twilio world |}.
Proof.
  intros Honly. unfold main, fetch_monthly. rewrite Honly. reflexivity.
Qed.

(** X20. A failure of the model is delivered as the summary.  In a valid
    run that is no dry run, with events that format to [text], a model call
    that raises with text [t] and a Twilio that creates the message, the
    run exits with code 0 after one request to Twilio, whose body is the
    bounded message made of the default subject, a blank line and
    "Failed to generate summary: " followed by [t]. *)
Theorem model_failure_is_sent_as_summary (args : Args) (config : Config.t)
    (world : World) (weekly : list Event.t)
    (monthly : option (list Event.t)) (text t : str) :
  Config.validate config (path_exists world) = Config.Validated ->
  clients_start world = true ->
  fetched_events (weekly_fetch world) = Some weekly ->
  fetch_monthly args world = Some monthly ->
  truthy weekly || truthy (get monthly []) = true ->
  _format_events_for_claude weekly monthly = Ok text ->
  (forall q, claude world q = Claude.Exception t) ->
  dry_run args = false ->
  Config.DRY_RUN config = false ->
  (forall q, exists sid status, twilio world q = Twilio.Created sid status) ->
  main args config world
  = {| exit_code := 0;
       claude_requests :=
         [ {| Claude.model := lit "claude-3-5-sonnet-20241022";
              Claude.max_tokens := 1500;
              Claude.content :=
                _load_prompt_template (prompt_file world) ++ nl ++ nl ++ text |} ];
       twilio_requests :=
         [ {| Twilio.body :=
                enforce (default_subject ++ nl ++ nl ++ failure_prefix ++ t);
              Twilio.from_ := Config.TWILIO_WHATSAPP_FROM config;
              Twilio.to := Config.TWILIO_WHATSAPP_TO config |} ] |}.
Proof.
  intros Hv Hstart Hweekly Hmonthly Hsome Htext Hclaude Hflag Hdry Htwilio.
  unfold main. cbv zeta.
  rewrite validate_override, Hv, Hstart, Hweekly, Hmonthly. cbn [negb].
  assert (Hempty : negb (truthy weekly) && negb (truthy (get monthly []))
                   = false).
  { destruct (truthy weekly), (truthy (get monthly [])); simpl in *;
      congruence. }
  rewrite Hempty.
  unfold generate_summary. rewrite Htext. cbv zeta. rewrite Hclaude.
  unfold send_summary_traced, send_message.
  assert (Hcfg : Config.DRY_RUN (override args config) = false)
    by (simpl; rewrite Hflag; exact Hdry).
  rewrite Hcfg.
  match goal with
  | |- context [twilio world ?q] =>
      destruct (Htwilio q) as (sid & status & Hq); rewrite Hq
  end.
  reflexivity.
Qed.

End MainProperties.

Lemma invalid_configuration_stops_the_run_witness :
  (forall args,
     run_main (lib := Rfc3339.lib) (Parsed args) SampleRun.config_unset
       (SampleRun.world SampleRun.week SampleRun.week)
     = stopped 1)
  /\ run_main (lib := Rfc3339.lib) HelpShown SampleRun.config_unset
       (SampleRun.world SampleRun.week SampleRun.week)
     = stopped 0
  /\ run_main (lib := Rfc3339.lib) UsageError SampleRun.config_unset
       (SampleRun.world SampleRun.week SampleRun.week)
     = stopped 2.
Proof.
  apply (@invalid_configuration_stops_the_run Rfc3339.lib).
  left. reflexivity.
Defined.

Lemma dry_run_sends_nothing_witness :
  twilio_requests
    (main (lib := Rfc3339.lib) SampleRun.dry SampleRun.config
       (SampleRun.world SampleRun.week SampleRun.week))
  = [].
Proof.
  apply (@dry_run_sends_nothing Rfc3339.lib).
  left. reflexivity.
Defined.

Lemma provider_error_ends_as_empty_week_witness :
  main (lib := Rfc3339.lib) SampleRun.no_flags SampleRun.config
    (SampleRun.world (Fetched HttpError) (Fetched HttpError))
  = stopped 0.
Proof.
  apply (@provider_error_ends_as_empty_week Rfc3339.lib);
    try reflexivity.
  right. reflexivity.
Defined.

Lemma malformed_record_stops_the_run_witness :
  main (lib := Rfc3339.lib) SampleRun.no_flags SampleRun.config
    (SampleRun.world SampleRun.broken_week SampleRun.week)
  = stopped 1.
Proof.
  apply (@malformed_record_stops_the_run Rfc3339.lib SampleRun.no_flags
           SampleRun.config
           (SampleRun.world SampleRun.broken_week SampleRun.week)
           [Sample.raw_standup; Sample.raw_no_start]).
  - exists Sample.raw_no_start. split; [simpl; auto | split].
    + reflexivity.
    + left. reflexivity.
  - left. reflexivity.
Defined.

Lemma weekly_only_ignores_monthly_fetch_witness :
  main (lib := Rfc3339.lib) SampleRun.only_weekly SampleRun.config
    (SampleRun.world SampleRun.week SampleRun.week)
  = main (lib := Rfc3339.lib) SampleRun.only_weekly SampleRun.config
      (SampleRun.world SampleRun.week SampleRun.broken_week).
Proof.
  exact (@weekly_only_ignores_monthly_fetch Rfc3339.lib SampleRun.only_weekly
           SampleRun.config (SampleRun.world SampleRun.week SampleRun.week)
           SampleRun.broken_week eq_refl).
Defined.

Lemma model_failure_is_sent_as_summary_witness :
  exists asked,
    main (lib := Rfc3339.lib) SampleRun.only_weekly SampleRun.config
      (SampleRun.world SampleRun.week SampleRun.week)
    = {| exit_code := 0;
         claude_requests := [asked];
         twilio_requests :=
           [ {| Twilio.body :=
                  default_subject ++ nl ++ nl
                  ++ lit "Failed to generate summary: overloaded";
                Twilio.from_ := lit "whatsapp:+14155238886";
                Twilio.to := Some (lit "whatsapp:+10000000000") |} ] |}.
Proof.
  eexists.
  refine (@model_failure_is_sent_as_summary Rfc3339.lib SampleRun.only_weekly
            SampleRun.config (SampleRun.world SampleRun.week SampleRun.week)
            [Sample.standup_event] None _ (lit "overloaded")
            eq_refl eq_refl eq_refl eq_refl eq_refl eq_refl _ eq_refl eq_refl
            _).
  - intros q. reflexivity.
  - intros q. do 2 eexists. reflexivity.
Defined.

(** ** Edge cases of normalisation *)



Section EmptyStart.

Context {lib : DatetimeLib}.

(** X22. A record whose start mapping is there but holds neither a
    timestamp nor a date is accepted without an error: its event has no
    start, is not all-day, and renders with the time line "None - "
    followed by the end as it was given. *)
Theorem empty_start_mapping_renders_as_none (event : Raw.Event.t)
    (en : Raw.Time.t) (v : str) :
  Raw.Event.start event = Some (Raw.Time.mk None None) ->
  Raw.Event.end_ event = Some en ->
  time_value en = Some v ->
  exists e,
    _process_event event = Ok e
    /\ Event.start e = None
    /\ Event.is_all_day e = false
    /\ time_str_of e = Ok (lit "None - " ++ v).
Proof.
  intros Hs Hen Hv. unfold _process_event. rewrite Hs, Hen. cbn [subscript bind].
  eexists. split; [reflexivity |].
  cbn [Event.start Event.is_all_day time_value has_date Raw.Time.dateTime
       Raw.Time.date].
  split; [reflexivity | split; [reflexivity |]].
  unfold time_str_of.
  cbn [Event.start Event.end_ Event.is_all_day time_value has_date
       Raw.Time.dateTime Raw.Time.date parse_iso bind].
  rewrite Hv. reflexivity.
Qed.

End EmptyStart.

Lemma empty_start_mapping_renders_as_none_witness :
  exists e,
    _process_event
      (Sample.raw "Empty" (Some (Raw.Time.mk None None))
         (Sample.at_time "2024-01-10T11:00:00Z") None)
    = Ok e
    /\ time_str_of (lib := Rfc3339.lib) e
       = Ok (lit "None - 2024-01-10T11:00:00Z").
Proof.
  destruct (@empty_start_mapping_renders_as_none Rfc3339.lib
              (Sample.raw "Empty" (Some (Raw.Time.mk None None))
                 (Sample.at_time "2024-01-10T11:00:00Z") None)
              (Raw.Time.mk (Some (lit "2024-01-10T11:00:00Z")) None)
              (lit "2024-01-10T11:00:00Z") eq_refl eq_refl eq_refl)
    as (e & He & _ & _ & Ht).
  exists e. split; [exact He | exact Ht].
Defined.
